(** * Account creation and password change: handlers and form controller

    A shallow embedding of

    - [PUT]  (/api/auth/change-password route handler),
    - [POST] (/api/auth/create-account route handler),
    - [handleSubmit] and its helpers (the change-password page),

    together with the parts of the Mongoose [User] model and of the
    JavaScript string library that these functions call.

    Conventions.  Strings are sequences of characters; [toLowerCase] and
    [trim] are an interface of the runtime.  A request body is the JSON object returned by
    [request.json()], read as a finite map from keys to string values; a
    key that is absent reads as [undefined].  The collection of user
    documents is a list, threaded explicitly through the handlers;
    [connectToDatabase] is taken to succeed. *)

From Stdlib Require Import ZArith Ascii String.
From stdpp Require Import gmap strings list.

(** ** JavaScript strings *)

Module Js.

(** [String.prototype.toLowerCase] and [String.prototype.trim] belong to
    the JavaScript runtime, not to this repository.  The handlers are
    stated over any pair of functions in their place, so that what is
    proved of the handlers holds of the runtime's own. *)
Class Strings := {
  toLowerCase : string → string;
  trim : string → string
}.

(** [s.includes(sub)] *)
Fixpoint includes (s sub : string) : bool :=
  String.prefix sub s ||
  match s with
  | EmptyString => false
  | String _ s' => includes s' sub
  end.

(** [!v] for a value that is [undefined] or a string. *)
Definition falsy (v : option string) : bool :=
  match v with
  | None => true
  | Some s => String.eqb s ""
  end.

(** The string held by a value already known to be truthy. *)
Definition str (v : option string) : string := default "" v.

End Js.

(** ** Lower-casing and trimming of ASCII text *)

(** What the two runtime functions do to a string of ASCII characters:
    the letters A to Z are lowered, and tab, line feed, vertical tab, form
    feed, carriage return and space are stripped from both ends.  Other
    characters are left as they are. *)
Module Plain.

Definition toLowerChar (c : ascii) : ascii :=
  let n := nat_of_ascii c in
  if (65 <=? n)%nat && (n <=? 90)%nat then ascii_of_nat (n + 32) else c.

Fixpoint lower (s : string) : string :=
  match s with
  | EmptyString => EmptyString
  | String c s' => String (toLowerChar c) (lower s')
  end.

Fixpoint trimStart (s : string) : string :=
  match s with
  | EmptyString => EmptyString
  | String c s' => if Ascii.is_space c then trimStart s' else s
  end.

Definition trimEnd (s : string) : string :=
  String.rev (trimStart (String.rev s)).

Definition strip (s : string) : string := trimEnd (trimStart s).

Fixpoint ascii_only (s : string) : bool :=
  match s with
  | EmptyString => true
  | String c s' => (nat_of_ascii c <? 128)%nat && ascii_only s'
  end.

(** The pair of functions that acts on ASCII characters only. *)
Definition strings : Js.Strings :=
  {| Js.toLowerCase := lower; Js.trim := strip |}.

End Plain.

(** What ECMAScript fixes for the two functions on ASCII strings. *)
Class OnAscii `{Js.Strings} : Prop := {
  toLowerCase_ascii : ∀ s,
    Plain.ascii_only s = true → Js.toLowerCase s = Plain.lower s;
  trim_ascii : ∀ s,
    Plain.ascii_only s = true → Js.trim s = Plain.strip s
}.

(** Trimming twice and lower-casing twice change nothing more, and the
    two commute. *)
Class NormalForms `{Js.Strings} : Prop := {
  trim_trim : ∀ s, Js.trim (Js.trim s) = Js.trim s;
  toLowerCase_toLowerCase : ∀ s,
    Js.toLowerCase (Js.toLowerCase s) = Js.toLowerCase s;
  toLowerCase_trim_comm : ∀ s,
    Js.toLowerCase (Js.trim s) = Js.trim (Js.toLowerCase s)
}.

(** ** JSON payloads and responses *)

#[local] Unset Elimination Schemes.
Inductive json : Type :=
| JNull
| JBool (b : bool)
| JNum (n : nat)
| JStr (s : string)
| JObj (fields : list (string * json)).
#[local] Set Elimination Schemes.

Definition keys (j : json) : list string :=
  match j with
  | JObj fields => fst <$> fields
  | _ => []
  end.

Definition field (k : string) (j : json) : option json :=
  match j with
  | JObj fields => (λ hit, snd (snd hit)) <$> list_find (λ kv, fst kv = k) fields
  | _ => None
  end.

Record NextResponse := { status : nat; payload : json }.

(** [NextResponse.json(body, { status })] *)
Definition NextResponse_json (body : json) (st : nat) : NextResponse :=
  {| status := st; payload := body |}.

Definition failure (msg : string) (st : nat) : NextResponse :=
  NextResponse_json (JObj [("success", JBool false); ("error", JStr msg)]) st.

(** ** Exceptions *)

Record JsError := { code : option Z }.

Inductive result (A : Type) : Type :=
| Ok (a : A)
| Throw (e : JsError).
Arguments Ok {A} a.
Arguments Throw {A} e.

#[global] Instance result_ret : MRet result := λ A a, Ok a.
#[global] Instance result_bind : MBind result := λ A B f m,
  match m with
  | Ok a => f a
  | Throw e => Throw e
  end.

(** ** Requests *)

Record NextRequest := {
  authorization : option string;
  body : option (gmap string string)
}.

(** [await request.json()]: rejects when the body does not parse. *)
Definition request_json (request : NextRequest) : result (gmap string string) :=
  match body request with
  | Some b => Ok b
  | None => Throw {| code := None |}
  end.

Record UserPayload := { userId : nat }.

(** ** The credential store *)

(** Modelled from the spec: the password capability of the user model
    (@/models/QaMonitorUsers is not part of the sources).  [hash_password]
    is the write-time hook that turns a plaintext password into the stored
    one-way hash; [verify_password h p] is the comparison of a candidate
    [p] with a stored hash [h].  The hook is taken to be a function of the
    password alone: salts are not modelled. *)
Class PasswordHasher := {
  hash_password : string → string;
  verify_password : string → string → bool
}.

(** What is assumed of the capability where a property depends on it: a
    fresh hash accepts its own password, and a password accepted by a hash
    of [q] is accepted by exactly the hashes that accept [q].  The second
    law is weaker than freedom from collisions; it lets a hash identify
    passwords (by truncation, say) as long as it does so consistently. *)
Class PasswordHasherLaws `{PasswordHasher} : Prop := {
  verify_hash : ∀ p, verify_password (hash_password p) p = true;
  verify_equiv : ∀ p q h,
    verify_password (hash_password q) p = true →
    verify_password h p = verify_password h q
}.

Module User.

Record t := mk {
  _id : nat;
  name : string;
  email : string;
  password : string;
  role : string;
  isActive : bool
}.

Definition set_password (u : t) (p : string) : t :=
  {| _id := _id u; name := name u; email := email u; password := p;
     role := role u; isActive := isActive u |}.

(** Modelled from the spec: lookup by identifier. *)
Definition findById (db : list t) (id : nat) : option t :=
  snd <$> list_find (λ u, _id u = id) db.

(** Modelled from the spec: lookup by email, [User.findOne({ email })]. *)
Definition findOne (db : list t) (e : string) : option t :=
  snd <$> list_find (λ u, email u = e) db.

(** Modelled from the spec: [new User({ name, email, password, role })]
    draws an identifier that no stored document has, and the active flag
    defaults to true. *)
Definition new (db : list t) (n e p r : string) : t :=
  {| _id := S (max_list (_id <$> db)); name := n; email := e;
     password := p; role := r; isActive := true |}.

(** Modelled from the spec: [doc.save()].  The write-time hook hashes
    the password, which both handlers assign just before saving.  A
    document whose identifier is stored already is written back in place;
    any other document is inserted, and the unique index on email rejects
    the insert with error code 11000. *)
Definition save `{PasswordHasher} (db : list t) (doc : t)
  : result (list t * t) :=
  let saved := set_password doc (hash_password (password doc)) in
  match list_find (λ u, _id u = _id doc) db with
  | Some (i, _) => Ok (<[i := saved]> db, saved)
  | None =>
      if bool_decide (Exists (λ u, email u = email saved) db)
      then Throw {| code := Some 11000%Z |}
      else Ok (db ++ [saved], saved)
  end.

(** [user.comparePassword(candidate)] *)
Definition comparePassword `{PasswordHasher} (u : t) (candidate : string)
  : bool :=
  verify_password (password u) candidate.

End User.

(** ** Route handlers *)

Section Handlers.

Context `{Js.Strings} `{PasswordHasher}.

(** Modelled from the spec: the identity resolver of @/lib/auth maps a
    request to the verified caller identity, or to nothing. *)
Variable getUserFromRequest : NextRequest → option UserPayload.

Definition password_changed : NextResponse :=
  NextResponse_json
    (JObj [("success", JBool true);
           ("message", JStr "Password changed successfully")]) 200.

(** The [try] block of the change-password handler. *)
Definition PUT_try (db : list User.t) (request : NextRequest)
  : result (list User.t * NextResponse) :=
  match getUserFromRequest request with
  | None => Ok (db, failure "Unauthorized" 401)
  | Some userPayload =>
    body ← request_json request;
    let oldPassword := body !! "oldPassword" in
    let newPassword := body !! "newPassword" in
    if Js.falsy oldPassword || Js.falsy newPassword then
      Ok (db, failure "Old password and new password are required" 400)
    else if String.length (Js.str newPassword) <? 6 then
      Ok (db, failure "New password must be at least 6 characters long" 400)
    else
      match User.findById db (userId userPayload) with
      | None => Ok (db, failure "User not found" 404)
      | Some user =>
        if negb (User.isActive user) then
          Ok (db, failure "Account is deactivated" 401)
        else if negb (User.comparePassword user (Js.str oldPassword)) then
          Ok (db, failure "Current password is incorrect" 400)
        else if User.comparePassword user (Js.str newPassword) then
          Ok (db, failure
                "New password must be different from current password" 400)
        else
          '(db', _) ← User.save db
                        (User.set_password user (Js.str newPassword));
          Ok (db', password_changed)
      end
  end.

(** [PUT /api/auth/change-password] *)
Definition PUT (db : list User.t) (request : NextRequest)
  : list User.t * NextResponse :=
  match PUT_try db request with
  | Ok r => r
  | Throw _ => (db, failure "Failed to change password" 500)
  end.

(** The requests that get past every check of [PUT]. *)
Definition accepted (db : list User.t) (request : NextRequest)
    (user : User.t) (old new : string) : Prop :=
  ∃ userPayload b,
    getUserFromRequest request = Some userPayload ∧
    body request = Some b ∧
    b !! "oldPassword" = Some old ∧ old ≠ "" ∧
    b !! "newPassword" = Some new ∧ 6 ≤ String.length new ∧
    User.findById db (userId userPayload) = Some user ∧
    User.isActive user = true ∧
    User.comparePassword user old = true ∧
    User.comparePassword user new = false.

Definition userResponse (savedUser : User.t) : json :=
  JObj [("_id", JNum (User._id savedUser));
        ("name", JStr (User.name savedUser));
        ("email", JStr (User.email savedUser));
        ("role", JStr (User.role savedUser));
        ("isActive", JBool (User.isActive savedUser))].

Definition account_created (savedUser : User.t) : NextResponse :=
  NextResponse_json
    (JObj [("success", JBool true);
           ("data", JObj [("user", userResponse savedUser)]);
           ("message", JStr "Account created successfully")]) 200.

(** The [try] block of the account-creation handler. *)
Definition POST_try (db : list User.t) (request : NextRequest)
  : result (list User.t * NextResponse) :=
  body ← request_json request;
  let name := body !! "name" in
  let email := body !! "email" in
  let oldPassword := body !! "oldPassword" in
  let newPassword := body !! "newPassword" in
  let role := default "tester" (body !! "role") in
  if Js.falsy name || Js.falsy email
     || Js.falsy oldPassword || Js.falsy newPassword then
    Ok (db, failure "All fields are required" 400)
  else if String.length (Js.str newPassword) <? 6 then
    Ok (db, failure "New password must be at least 6 characters long" 400)
  else if String.eqb (Js.str oldPassword) (Js.str newPassword) then
    Ok (db, failure
          "New password must be different from the old password" 400)
  else
    match User.findOne db (Js.toLowerCase (Js.str email)) with
    | Some existingUser =>
        Ok (db, failure "User with this email already exists" 400)
    | None =>
        let user :=
          User.new db (Js.trim (Js.str name))
            (Js.trim (Js.toLowerCase (Js.str email)))
            (Js.str newPassword) role in
        '(db', savedUser) ← User.save db user;
        Ok (db', account_created savedUser)
    end.

(** The [catch] block of the account-creation handler. *)
Definition POST_catch (error : JsError) : NextResponse :=
  if bool_decide (code error = Some 11000%Z)
  then failure "User with this email already exists" 400
  else failure "Failed to create account" 500.

(** [POST /api/auth/create-account] *)
Definition POST (db : list User.t) (request : NextRequest)
  : list User.t * NextResponse :=
  match POST_try db request with
  | Ok r => r
  | Throw error => (db, POST_catch error)
  end.

End Handlers.

(** ** The change-password page *)

Module FieldErrors.
Record t := mk {
  oldPassword : option string;
  newPassword : option string;
  general : option string
}.
Definition empty : t :=
  {| oldPassword := None; newPassword := None; general := None |}.
End FieldErrors.

Module RegistrationData.
Record t := mk {
  name : string;
  email : string;
  password : string;
  role : string
}.
End RegistrationData.

Module FormData.
Record t := mk { oldPassword : string; newPassword : string }.
End FormData.

Module ChangePasswordPage.

Record State := {
  loading : bool;
  isRegistrationFlow : bool;
  registrationData : option RegistrationData.t;
  formData : FormData.t;
  fieldErrors : FieldErrors.t;
  success : bool
}.

(** How the awaited call ([register] or [axios.put]) settles: it
    resolves with [response.data.success], or it rejects with an error
    whose [response?.data?.error] is given. *)
Inductive settled :=
| Resolved (data_success : bool)
| Rejected (response_data_error : option string).

Definition isValidPassword (password : string) : bool :=
  6 <=? String.length password.

Definition validateField (st : State) (fieldName value : string)
  : option string :=
  if String.eqb fieldName "oldPassword" then
    if String.eqb value "" then
      Some (if isRegistrationFlow st then "Default password is required"
            else "Current password is required")
    else None
  else if String.eqb fieldName "newPassword" then
    if String.eqb value "" then Some "New password is required"
    else if negb (isValidPassword value) then
      Some "New password must be at least 6 characters long"
    else if String.eqb value (FormData.oldPassword (formData st)) then
      Some "New password must be different from the default password"
    else None
  else None.

(** The [errors] object built by [validateAllFields]; the function
    returns true when it has no keys. *)
Definition validateAllFields_errors (st : State) : FieldErrors.t :=
  {| FieldErrors.oldPassword :=
       validateField st "oldPassword" (FormData.oldPassword (formData st));
     FieldErrors.newPassword :=
       validateField st "newPassword" (FormData.newPassword (formData st));
     FieldErrors.general := None |}.

Definition validateAllFields (st : State) : bool :=
  let errors := validateAllFields_errors st in
  match FieldErrors.oldPassword errors, FieldErrors.newPassword errors with
  | None, None => true
  | _, _ => false
  end.

Definition set_errors (st : State) (ld : bool) (e : FieldErrors.t) : State :=
  {| loading := ld; isRegistrationFlow := isRegistrationFlow st;
     registrationData := registrationData st; formData := formData st;
     fieldErrors := e; success := success st |}.

Definition set_success (st : State) (fd : FormData.t) : State :=
  {| loading := false; isRegistrationFlow := isRegistrationFlow st;
     registrationData := registrationData st; formData := fd;
     fieldErrors := FieldErrors.empty; success := true |}.

Definition errorMessage (response_data_error : option string) : string :=
  if Js.falsy response_data_error then "Failed to process request"
  else Js.str response_data_error.

(** The [catch] block of [handleSubmit], followed by [finally]. *)
Definition handleSubmit_catch (st : State)
    (response_data_error : option string) : State :=
  let errorMessage := errorMessage response_data_error in
  if Js.includes errorMessage "Current password is incorrect"
     || Js.includes errorMessage "password" then
    set_errors st false
      {| FieldErrors.oldPassword := Some errorMessage;
         FieldErrors.newPassword := None; FieldErrors.general := None |}
  else
    set_errors st false
      {| FieldErrors.oldPassword := None;
         FieldErrors.newPassword := None;
         FieldErrors.general := Some errorMessage |}.

(** [handleSubmit]: the state of the page once the handler has run to
    completion, given how the call it awaits settles. *)
Definition handleSubmit (st : State) (call : settled) : State :=
  if negb (validateAllFields st) then
    set_errors st (loading st) (validateAllFields_errors st)
  else
    match isRegistrationFlow st, registrationData st with
    | true, Some reg =>
        if negb (String.eqb (FormData.oldPassword (formData st))
                   (RegistrationData.password reg)) then
          set_errors st false
            {| FieldErrors.oldPassword :=
                 Some "Default password is incorrect";
               FieldErrors.newPassword := None;
               FieldErrors.general := None |}
        else
          match call with
          | Resolved _ => set_success st (formData st)
          | Rejected e => handleSubmit_catch st e
          end
    | _, _ =>
        match call with
        | Resolved true =>
            set_success st
              {| FormData.oldPassword := ""; FormData.newPassword := "" |}
        | Resolved false => set_errors st false FieldErrors.empty
        | Rejected e => handleSubmit_catch st e
        end
    end.

(** Whether [handleSubmit] gets as far as awaiting the call. *)
Definition submits (st : State) : bool :=
  validateAllFields st &&
  match isRegistrationFlow st, registrationData st with
  | true, Some reg =>
      String.eqb (FormData.oldPassword (formData st))
        (RegistrationData.password reg)
  | _, _ => true
  end.

(** [fieldErrors[name]] *)
Definition get_error (errors : FieldErrors.t) (name : string)
  : option string :=
  if String.eqb name "oldPassword" then FieldErrors.oldPassword errors
  else if String.eqb name "newPassword" then FieldErrors.newPassword errors
  else if String.eqb name "general" then FieldErrors.general errors
  else None.

(** [{ ...prev, [name]: v }] on the error object.  A key other than the
    three the page reads is not kept. *)
Definition put_error (prev : FieldErrors.t) (name : string)
    (v : option string) : FieldErrors.t :=
  if String.eqb name "oldPassword" then
    {| FieldErrors.oldPassword := v;
       FieldErrors.newPassword := FieldErrors.newPassword prev;
       FieldErrors.general := FieldErrors.general prev |}
  else if String.eqb name "newPassword" then
    {| FieldErrors.oldPassword := FieldErrors.oldPassword prev;
       FieldErrors.newPassword := v;
       FieldErrors.general := FieldErrors.general prev |}
  else if String.eqb name "general" then
    {| FieldErrors.oldPassword := FieldErrors.oldPassword prev;
       FieldErrors.newPassword := FieldErrors.newPassword prev;
       FieldErrors.general := v |}
  else prev.

(** [{ ...prev, [name]: value }] on the form data; likewise. *)
Definition put_field (prev : FormData.t) (name value : string)
  : FormData.t :=
  if String.eqb name "oldPassword" then
    {| FormData.oldPassword := value;
       FormData.newPassword := FormData.newPassword prev |}
  else if String.eqb name "newPassword" then
    {| FormData.oldPassword := FormData.oldPassword prev;
       FormData.newPassword := value |}
  else prev.

(** [handleInputChange], for the event of an input named [name] whose
    content has become [value]. *)
Definition handleInputChange (st : State) (name value : string) : State :=
  let cleared :=
    if negb (Js.falsy (get_error (fieldErrors st) name))
    then put_error (fieldErrors st) name None
    else fieldErrors st in
  let cleared :=
    if negb (Js.falsy (FieldErrors.general (fieldErrors st)))
    then put_error cleared "general" None
    else cleared in
  {| loading := loading st; isRegistrationFlow := isRegistrationFlow st;
     registrationData := registrationData st;
     formData := put_field (formData st) name value;
     fieldErrors := cleared;
     success := if success st then false else success st |}.

(** [handleFieldBlur] *)
Definition handleFieldBlur (st : State) (fieldName value : string) : State :=
  let error := validateField st fieldName value in
  set_errors st (loading st)
    (put_error (fieldErrors st) fieldName
       (if Js.falsy error then None else error)).

(** The two marks of the requirements box and the state of the submit
    button, as the page renders them. *)
Definition requirement_length (st : State) : bool :=
  6 <=? String.length (FormData.newPassword (formData st)).

Definition requirement_different (st : State) : bool :=
  negb (String.eqb (FormData.newPassword (formData st)) "") &&
  negb (String.eqb (FormData.newPassword (formData st))
          (FormData.oldPassword (formData st))).

Definition submit_disabled (st : State) : bool := loading st || success st.

(** The body that the change flow sends with [axios.put]. *)
Definition change_password_body (st : State) : gmap string string :=
  {[ "oldPassword" := FormData.oldPassword (formData st);
     "newPassword" := FormData.newPassword (formData st) ]}.

(** [error.response?.data?.error] for a rejection that carries the
    response [r] of a handler. *)
Definition response_data_error (r : NextResponse) : option string :=
  match field "error" (payload r) with
  | Some (JStr msg) => Some msg
  | _ => None
  end.

End ChangePasswordPage.

(** ** Well-formed stores *)

(** Identifiers and emails are keys of the collection. *)
Definition unique_keys (db : list User.t) : Prop :=
  NoDup (User._id <$> db) ∧ NoDup (User.email <$> db).

(** An email in the form under which the creation handler stores it. *)
Definition normalised `{Js.Strings} (e : string) : Prop :=
  Js.trim e = e ∧ Js.toLowerCase e = e.

(** ** A concrete store, resolver and hasher *)

Module Demo.

(** A transparent stand-in for the hash: the password behind a tag. *)
Definition tag_hasher : PasswordHasher :=
  {| hash_password p := "h$" +:+ p;
     verify_password h p := String.eqb h ("h$" +:+ p) |}.

(** A hasher whose comparison accepts every candidate. *)
Definition lax_hasher : PasswordHasher :=
  {| hash_password p := p; verify_password _ _ := true |}.

Definition sessions : gmap string nat :=
  {[ "tok-alice" := 1; "tok-bob" := 2; "tok-ghost" := 9 ]}.

Definition session_resolver (request : NextRequest) : option UserPayload :=
  tok ← authorization request; Build_UserPayload <$> sessions !! tok.

Definition alice : User.t :=
  User.mk 1 "Alice" "a@x.com" "h$default1" "tester" true.
Definition bob : User.t :=
  User.mk 2 "Bob" "b@x.com" "h$hunter22" "admin" false.
Definition db : list User.t := [alice; bob].

Definition request (tok : option string) (kv : list (string * string))
  : NextRequest :=
  {| authorization := tok; body := Some (list_to_map kv) |}.

Definition change_alice : NextRequest :=
  request (Some "tok-alice")
    [("oldPassword", "default1"); ("newPassword", "secret1")].

Definition create_carl : NextRequest :=
  request None
    [("name", " Carl "); ("email", " Carl@X.com ");
     ("oldPassword", "default1"); ("newPassword", "secret1")].

Definition page : ChangePasswordPage.State :=
  {| ChangePasswordPage.loading := false;
     ChangePasswordPage.isRegistrationFlow := false;
     ChangePasswordPage.registrationData := None;
     ChangePasswordPage.formData :=
       {| FormData.oldPassword := "default1";
          FormData.newPassword := "secret1" |};
     ChangePasswordPage.fieldErrors := FieldErrors.empty;
     ChangePasswordPage.success := false |}.

End Demo.

(** * Properties *)

(** ** Strings *)

Lemma falsy_false (v : option string) :
  Js.falsy v = false ↔ ∃ s, v = Some s ∧ s ≠ "".
Proof.
  destruct v as [s|]; simpl.
  - rewrite String.eqb_neq. split.
    + intros Hs. exists s. done.
    + intros (s' & Heq & Hne). congruence.
  - split; [done|]. intros (s' & Heq & _). done.
Qed.

Lemma falsy_Some (s : string) : s ≠ "" → Js.falsy (Some s) = false.
Proof. intros. apply falsy_false. eauto. Qed.

Lemma length_nonempty (s : string) : 6 ≤ String.length s → s ≠ "".
Proof. intros Hlen ->. simpl in Hlen. lia. Qed.

(** ** The store *)

Section Store.

Context `{PasswordHasher}.

Lemma findById_Some (db : list User.t) (id : nat) (u : User.t) :
  User.findById db id = Some u ↔
  ∃ i, list_find (λ v, User._id v = id) db = Some (i, u).
Proof.
  unfold User.findById. rewrite fmap_Some. split.
  - intros [[i v] [Hfind ->]]. eauto.
  - intros [i Hfind]. exists (i, u). done.
Qed.

Lemma findById_id (db : list User.t) (id : nat) (u : User.t) :
  User.findById db id = Some u → User._id u = id.
Proof.
  intros Hfind. apply findById_Some in Hfind as [i Hfind].
  apply list_find_Some in Hfind as (_ & Hid & _). exact Hid.
Qed.

(** Saving a fetched document with a new password writes it back at
    the position it was read from. *)
Lemma save_fetched (db : list User.t) (id : nat) (u : User.t) (p : string) :
  User.findById db id = Some u →
  ∃ i, db !! i = Some u ∧
       User.save db (User.set_password u p)
       = Ok (<[i := User.set_password u (hash_password p)]> db,
             User.set_password u (hash_password p)).
Proof.
  intros [i Hfind]%findById_Some.
  pose proof Hfind as (Hi & Hid & _)%list_find_Some.
  exists i. split; [done|].
  unfold User.save. simpl. rewrite Hid, Hfind. done.
Qed.

Lemma findById_insert (db : list User.t) (id i : nat) (u v : User.t) :
  list_find (λ w, User._id w = id) db = Some (i, u) →
  User._id v = id →
  User.findById (<[i := v]> db) id = Some v.
Proof.
  intros Hfind Hv. apply findById_Some. exists i.
  pose proof Hfind as (Hi & _ & Hleast)%list_find_Some.
  apply list_find_insert_Some. right; left.
  split_and!; eauto using lookup_lt_Some.
Qed.

Lemma new_id_fresh (db : list User.t) (n e p r : string) :
  list_find (λ u, User._id u = User._id (User.new db n e p r)) db = None.
Proof.
  apply list_find_None, Forall_forall. intros u Hu Heq. simpl in Heq.
  assert (User._id u ≤ max_list (User._id <$> db)); [|lia].
  apply max_list_elem_of_le, list_elem_of_fmap. eauto.
Qed.

Lemma findOne_None (db : list User.t) (e : string) :
  User.findOne db e = None ↔ ∀ u, u ∈ db → User.email u ≠ e.
Proof.
  unfold User.findOne. rewrite fmap_None, list_find_None, Forall_forall.
  done.
Qed.

Lemma findOne_Some_elem (db : list User.t) (e : string) (u : User.t) :
  User.findOne db e = Some u → u ∈ db ∧ User.email u = e.
Proof.
  unfold User.findOne. intros [[i v] [Hfind ->]]%fmap_Some.
  apply list_find_Some in Hfind as (Hi & He & _).
  split; [by eapply list_elem_of_lookup_2|done].
Qed.

(** Saving a new document: the unique index decides. *)
Lemma save_new (db : list User.t) (n e p r : string) :
  User.save db (User.new db n e p r) =
  if bool_decide (Exists (λ u, User.email u = e) db)
  then Throw {| code := Some 11000%Z |}
  else let saved := User.new db n e (hash_password p) r in
       Ok (db ++ [saved], saved).
Proof.
  unfold User.save. rewrite new_id_fresh. done.
Qed.

End Store.

(** ** Password change *)

Section PasswordChange.

Context `{PasswordHasher}.
Variable getUserFromRequest : NextRequest → option UserPayload.

Lemma PUT_accepted db request user old new :
  accepted getUserFromRequest db request user old new →
  ∃ i, list_find (λ v, User._id v = User._id user) db = Some (i, user) ∧
       PUT getUserFromRequest db request =
       (<[i := User.set_password user (hash_password new)]> db,
        password_changed).
Proof.
  intros (userPayload & b & Hid & Hb & Hold & Hne & Hnew & Hlen
          & Hfind & Hact & Hcmp & Hsame).
  pose proof (findById_id _ _ _ Hfind) as Huid.
  pose proof Hfind as [i Hi]%findById_Some.
  exists i. rewrite Huid. split; [done|].
  pose proof Hi as (Hlook & _ & _)%list_find_Some.
  unfold PUT, PUT_try, request_json. rewrite Hid, Hb. simpl.
  rewrite Hold, Hnew. rewrite !falsy_Some by auto using length_nonempty.
  simpl. destruct (Nat.ltb_spec (String.length new) 6); [lia|].
  rewrite Hfind, Hact, Hcmp, Hsame. simpl.
  unfold User.save. simpl. rewrite <- Huid in Hi. rewrite Hi. done.
Qed.

(** Conversely, a 200 response is only ever produced past all checks,
    and every other response leaves the store as it was. *)
Lemma PUT_inv db request :
  (status (PUT getUserFromRequest db request).2 ≠ 200 ∧
   (PUT getUserFromRequest db request).1 = db) ∨
  (∃ user old new, accepted getUserFromRequest db request user old new).
Proof.
  unfold PUT, PUT_try, request_json.
  destruct (getUserFromRequest request) as [userPayload|] eqn:Hid;
    [|left; simpl; split; [lia|done]].
  destruct (body request) as [b|] eqn:Hb;
    [|left; simpl; split; [lia|done]].
  simpl.
  destruct (Js.falsy (b !! "oldPassword")) eqn:Hold;
    [left; simpl; split; [lia|done]|].
  destruct (Js.falsy (b !! "newPassword")) eqn:Hnew;
    [left; simpl; split; [lia|done]|].
  apply falsy_false in Hold as (old & Hold & Hne).
  apply falsy_false in Hnew as (new & Hnew & _).
  rewrite Hold, Hnew. simpl.
  destruct (Nat.ltb_spec (String.length new) 6);
    [left; simpl; split; [lia|done]|].
  destruct (User.findById db (userId userPayload)) as [user|] eqn:Hfind;
    [|left; simpl; split; [lia|done]].
  destruct (User.isActive user) eqn:Hact;
    [|left; simpl; split; [lia|done]].
  destruct (User.comparePassword user old) eqn:Hcmp;
    [|left; simpl; split; [lia|done]].
  destruct (User.comparePassword user new) eqn:Hsame;
    [left; simpl; split; [lia|done]|].
  right. exists user, old, new, userPayload, b. done.
Qed.

(** The fifth check: a present pair of fields, a long enough new password
    and an active record, but an old password that does not verify. *)
Lemma PUT_wrong_old db request userPayload b old new user :
  getUserFromRequest request = Some userPayload →
  body request = Some b →
  b !! "oldPassword" = Some old → old ≠ "" →
  b !! "newPassword" = Some new → 6 ≤ String.length new →
  User.findById db (userId userPayload) = Some user →
  User.isActive user = true →
  User.comparePassword user old = false →
  PUT getUserFromRequest db request =
    (db, failure "Current password is incorrect" 400).
Proof.
  intros Hid Hb Hold Hne Hnew Hlen Hfind Hact Hcmp.
  unfold PUT, PUT_try, request_json. rewrite Hid, Hb. simpl.
  rewrite Hold, Hnew. rewrite !falsy_Some by auto using length_nonempty.
  simpl. destruct (Nat.ltb_spec (String.length new) 6); [lia|].
  rewrite Hfind, Hact, Hcmp. done.
Qed.

End PasswordChange.

Section PasswordChangeClaims.

Context `{PasswordHasher}.
Variable getUserFromRequest : NextRequest → option UserPayload.

(** Once [new] has replaced the password, whatever the old hash
    accepted is refused, provided it refused [new]. *)
Lemma stale_password_refused `{!PasswordHasherLaws}
    (user : User.t) (new prior : string) :
  User.comparePassword user new = false →
  User.comparePassword user prior = true →
  User.comparePassword
    (User.set_password user (hash_password new)) prior = false.
Proof.
  unfold User.comparePassword. simpl. intros Hnew Hprior.
  destruct (verify_password (hash_password new) prior) eqn:Hv; [|done].
  apply (verify_equiv _ _ (User.password user)) in Hv. congruence.
Qed.

(** C1. A password-change request with a resolved identity, both fields
    present, a new password of at least six characters, a matching active
    record, an old password that verifies and a new password that does
    not, overwrites the record's password with the hash of the new
    password, persists it, and answers 200 with nothing but
    [success: true] and a message; afterwards the stored hash verifies
    against the new password and against nothing the prior hash
    accepted. *)
Theorem change_password_succeeds `{!PasswordHasherLaws}
    (db : list User.t) (request : NextRequest) (userPayload : UserPayload)
    (b : gmap string string) (old new : string) (user : User.t) :
  getUserFromRequest request = Some userPayload →
  body request = Some b →
  b !! "oldPassword" = Some old → old ≠ "" →
  b !! "newPassword" = Some new → 6 ≤ String.length new →
  User.findById db (userId userPayload) = Some user →
  User.isActive user = true →
  User.comparePassword user old = true →
  User.comparePassword user new = false →
  ∃ i, db !! i = Some user ∧
    let user' := User.set_password user (hash_password new) in
    PUT getUserFromRequest db request =
      (<[i := user']> db,
       {| status := 200;
          payload := JObj [("success", JBool true);
                           ("message",
                            JStr "Password changed successfully")] |}) ∧
    User.findById (<[i := user']> db) (userId userPayload) = Some user' ∧
    User.comparePassword user' new = true ∧
    User.comparePassword user' old = false ∧
    (∀ prior, User.comparePassword user prior = true →
              User.comparePassword user' prior = false).
Proof.
  intros Hid Hb Hold Hne Hnew Hlen Hfind Hact Hcmp Hsame.
  destruct (PUT_accepted getUserFromRequest db request user old new)
    as (i & Hi & Hput).
  { exists userPayload, b. done. }
  pose proof (findById_id _ _ _ Hfind) as Huid.
  pose proof Hi as (Hlook & _ & _)%list_find_Some.
  exists i. split; [done|]. simpl. split_and!.
  - exact Hput.
  - rewrite <- Huid. eapply findById_insert; [exact Hi|done].
  - unfold User.comparePassword. simpl. apply verify_hash.
  - by apply stale_password_refused.
  - intros prior. by apply stale_password_refused.
Qed.

(** C2. Every response other than 200 leaves the store exactly as it
    was.  A 200 response goes with one write: one position of the store
    changes, the record there gets a different password, and its
    identifier, name, email, role and active flag stay as they were. *)
Theorem change_password_frame `{!PasswordHasherLaws}
    (db db' : list User.t) (request : NextRequest)
    (response : NextResponse) :
  PUT getUserFromRequest db request = (db', response) →
  (status response ≠ 200 → db' = db) ∧
  (status response = 200 →
   ∃ i user user',
     db !! i = Some user ∧ db' = <[i := user']> db ∧
     db' !! i = Some user' ∧
     length db' = length db ∧
     (∀ j, j ≠ i → db' !! j = db !! j) ∧
     User.password user' ≠ User.password user ∧
     User._id user' = User._id user ∧
     User.name user' = User.name user ∧
     User.email user' = User.email user ∧
     User.role user' = User.role user ∧
     User.isActive user' = User.isActive user).
Proof.
  intros Hput.
  destruct (PUT_inv getUserFromRequest db request)
    as [[Hst Hdb]|(user & old & new & Hacc)].
  - rewrite Hput in Hst, Hdb. simpl in *. split; [done|]. intros. done.
  - pose proof Hacc as (_ & _ & _ & _ & _ & _ & _ & _ & _ & _ & _ & Hsame).
    apply PUT_accepted in Hacc as (i & Hi & Hput').
    rewrite Hput in Hput'. injection Hput' as -> ->.
    split; [simpl; lia|]. intros _.
    pose proof Hi as (Hlook & _ & _)%list_find_Some.
    exists i, user, (User.set_password user (hash_password new)).
    split_and!; try done.
    + apply list_lookup_insert_eq. by eapply lookup_lt_Some.
    + apply length_insert.
    + intros j Hj. by apply list_lookup_insert_ne.
    + simpl. intros Heq. unfold User.comparePassword in Hsame.
      rewrite <- Heq, verify_hash in Hsame. done.
Qed.

(** C3. The handler applies its checks in a fixed order and answers with
    the first that fails: 401 without a caller identity, whatever the body;
    then 400 for a missing field; 400 for a new password shorter than six
    characters; 404 when no record has the caller's identifier; 401 for a
    deactivated record; 400 when the old password does not verify; and 400
    when the record's own comparison accepts the new password. *)
Theorem change_password_checks_in_order
    (db : list User.t) (request : NextRequest) :
  (getUserFromRequest request = None →
   PUT getUserFromRequest db request = (db, failure "Unauthorized" 401)) ∧
  (∀ userPayload b,
     getUserFromRequest request = Some userPayload →
     body request = Some b →
     (Js.falsy (b !! "oldPassword") = true ∨
      Js.falsy (b !! "newPassword") = true →
      PUT getUserFromRequest db request =
        (db, failure "Old password and new password are required" 400)) ∧
     (∀ old new,
        b !! "oldPassword" = Some old → old ≠ "" →
        b !! "newPassword" = Some new → new ≠ "" →
        (String.length new < 6 →
         PUT getUserFromRequest db request =
           (db, failure
                  "New password must be at least 6 characters long" 400)) ∧
        (6 ≤ String.length new →
         (User.findById db (userId userPayload) = None →
          PUT getUserFromRequest db request =
            (db, failure "User not found" 404)) ∧
         (∀ user,
            User.findById db (userId userPayload) = Some user →
            (User.isActive user = false →
             PUT getUserFromRequest db request =
               (db, failure "Account is deactivated" 401)) ∧
            (User.isActive user = true →
             (User.comparePassword user old = false →
              PUT getUserFromRequest db request =
                (db, failure "Current password is incorrect" 400)) ∧
             (User.comparePassword user old = true →
              User.comparePassword user new = true →
              PUT getUserFromRequest db request =
                (db, failure
                   "New password must be different from current password"
                   400))))))).
Proof.
  unfold PUT, PUT_try, request_json. split.
  { intros ->. done. }
  intros userPayload b -> ->. simpl. split.
  { intros [->| ->]; [done|]. by rewrite orb_true_r. }
  intros old new -> Hold -> Hnew.
  rewrite !falsy_Some by done. simpl. split.
  { intros Hlen. destruct (Nat.ltb_spec (String.length new) 6); [done|lia]. }
  intros Hlen. destruct (Nat.ltb_spec (String.length new) 6); [lia|]. split.
  { intros ->. done. }
  intros user ->. split.
  { intros ->. done. }
  intros ->. simpl. split.
  { intros ->. done. }
  intros -> ->. done.
Qed.

(** C7. Replaying a password change that has just succeeded, with the
    same old and new passwords, is answered with the 400 reserved for a
    wrong current password, and the store stays as the first call left
    it. *)
Theorem change_password_replay_rejected `{!PasswordHasherLaws}
    (db db' : list User.t) (request : NextRequest)
    (response : NextResponse) :
  PUT getUserFromRequest db request = (db', response) →
  status response = 200 →
  PUT getUserFromRequest db' request =
    (db', failure "Current password is incorrect" 400).
Proof.
  intros Hput Hok.
  destruct (PUT_inv getUserFromRequest db request)
    as [[Hst _]|(user & old & new & Hacc)].
  { rewrite Hput in Hst. done. }
  pose proof Hacc as (userPayload & b & Hid & Hb & Hold & Hne & Hnew & Hlen
                      & Hfind & Hact & Hcmp & Hsame).
  apply PUT_accepted in Hacc as (i & Hi & Hput').
  rewrite Hput in Hput'. injection Hput' as -> _.
  pose proof (findById_id _ _ _ Hfind) as Huid.
  apply (PUT_wrong_old getUserFromRequest _ _ userPayload b old new
           (User.set_password user (hash_password new)));
    auto using length_nonempty.
  - rewrite <- Huid. eapply findById_insert; [exact Hi|done].
  - by apply stale_password_refused.
Qed.

End PasswordChangeClaims.

(** ** Account creation *)

Section AccountCreation.

Context `{Js.Strings} `{PasswordHasher}.

(** The record a successful creation stores. *)
Lemma POST_created db request b n e old new :
  body request = Some b →
  b !! "name" = Some n → n ≠ "" →
  b !! "email" = Some e → e ≠ "" →
  b !! "oldPassword" = Some old → old ≠ "" →
  b !! "newPassword" = Some new → 6 ≤ String.length new →
  old ≠ new →
  User.findOne db (Js.toLowerCase e) = None →
  POST_try db request =
    '(db', savedUser) ← User.save db
        (User.new db (Js.trim n) (Js.trim (Js.toLowerCase e)) new
           (default "tester" (b !! "role")));
    Ok (db', account_created savedUser).
Proof.
  intros Hb Hn Hn' He He' Hold Hold' Hnew Hlen Hdiff Hfree.
  unfold POST_try, request_json. rewrite Hb. simpl.
  rewrite Hn, He, Hold, Hnew.
  rewrite !falsy_Some by auto using length_nonempty. simpl.
  destruct (Nat.ltb_spec (String.length new) 6); [lia|].
  apply String.eqb_neq in Hdiff. rewrite Hdiff, Hfree. done.
Qed.

(** A request that fails one of the three validation checks. *)
Lemma POST_invalid db request b :
  body request = Some b →
  (∃ msg, POST db request = (db, failure msg 400) ∧
          msg ∈ ["All fields are required";
                 "New password must be at least 6 characters long";
                 "New password must be different from the old password"]) ∨
  (∃ n e old new,
     b !! "name" = Some n ∧ n ≠ "" ∧ b !! "email" = Some e ∧ e ≠ "" ∧
     b !! "oldPassword" = Some old ∧ old ≠ "" ∧
     b !! "newPassword" = Some new ∧ 6 ≤ String.length new ∧ old ≠ new).
Proof.
  intros Hb. unfold POST, POST_try, request_json. rewrite Hb. simpl.
  destruct (Js.falsy (b !! "name")) eqn:Hn;
    [left; eexists; split; [done|set_solver]|].
  destruct (Js.falsy (b !! "email")) eqn:He;
    [left; eexists; split; [done|set_solver]|].
  destruct (Js.falsy (b !! "oldPassword")) eqn:Hold;
    [left; eexists; split; [done|set_solver]|].
  destruct (Js.falsy (b !! "newPassword")) eqn:Hnew;
    [left; eexists; split; [done|set_solver]|].
  apply falsy_false in Hn as (n & Hn & ?), He as (e & He & ?).
  apply falsy_false in Hold as (old & Hold & ?), Hnew as (new & Hnew & ?).
  rewrite Hold, Hnew. simpl.
  destruct (Nat.ltb_spec (String.length new) 6);
    [left; eexists; split; [done|set_solver]|].
  destruct (String.eqb_spec old new);
    [left; eexists; split; [done|set_solver]|].
  right. exists n, e, old, new. done.
Qed.

(** C4. A creation request with a missing field is answered 400 "All
    fields are required"; with all fields present and a new password
    shorter than six characters, 400 "at least 6 characters"; with a long
    enough new password equal to the old one, 400 "must be different".
    Each answer is given whatever the store holds, and the store is left
    as it was. *)
Theorem create_account_validation
    (db : list User.t) (request : NextRequest) (b : gmap string string) :
  body request = Some b →
  (Js.falsy (b !! "name") = true ∨ Js.falsy (b !! "email") = true ∨
   Js.falsy (b !! "oldPassword") = true ∨
   Js.falsy (b !! "newPassword") = true →
   POST db request = (db, failure "All fields are required" 400)) ∧
  (∀ n e old new,
     b !! "name" = Some n → n ≠ "" → b !! "email" = Some e → e ≠ "" →
     b !! "oldPassword" = Some old → old ≠ "" →
     b !! "newPassword" = Some new → new ≠ "" →
     (String.length new < 6 →
      POST db request =
        (db, failure
               "New password must be at least 6 characters long" 400)) ∧
     (6 ≤ String.length new → old = new →
      POST db request =
        (db, failure
               "New password must be different from the old password"
               400))) ∧
  ((b !! "name" = None ∨ b !! "email" = None ∨
    b !! "oldPassword" = None ∨ b !! "newPassword" = None) ∨
   (∃ new, b !! "newPassword" = Some new ∧ String.length new < 6) ∨
   (∃ p, b !! "oldPassword" = Some p ∧ b !! "newPassword" = Some p) →
   ∃ msg, POST db request = (db, failure msg 400) ∧
          msg ∈ ["All fields are required";
                 "New password must be at least 6 characters long";
                 "New password must be different from the old password"]).
Proof.
  intros Hb. split_and!.
  - unfold POST, POST_try, request_json. rewrite Hb. simpl.
    intros [->|[->|[->| ->]]]; simpl; by rewrite ?orb_true_r.
  - intros n e old new Hn ? He ? Hold ? Hnew ?.
    unfold POST, POST_try, request_json. rewrite Hb. simpl.
    rewrite Hn, He, Hold, Hnew. rewrite !falsy_Some by done. simpl. split.
    + intros Hlen.
      destruct (Nat.ltb_spec (String.length new) 6); [done|lia].
    + intros Hlen ->.
      destruct (Nat.ltb_spec (String.length new) 6); [lia|].
      by rewrite String.eqb_refl.
  - intros Hbad.
    destruct (POST_invalid db request b Hb)
      as [Hmsg|(n & e & old & new & Hn & _ & He & _ & Hold & _
                & Hnew & Hlen & Hdiff)]; [done|].
    exfalso. rewrite Hn, He, Hold, Hnew in Hbad.
    destruct Hbad as [[?|[?|[?|?]]]|[(p & [= <-] & ?)|(p & [= <-] & [= <-])]];
      try done; lia.
Qed.


(** C6, as amended.  A creation request with all four fields present, a
    new password of at least six characters that differs from the old one,
    and an email that no stored record has, either as lower-cased or as
    lower-cased and trimmed, appends exactly one record: a fresh
    identifier, the trimmed name, the lower-cased and trimmed email, the
    hash of the new password, the given role or "tester", and the active
    flag set.  The 200 response carries the identifier, name, email, role
    and active flag of that record and no password. *)
Theorem create_account_succeeds
    (db : list User.t) (request : NextRequest) (b : gmap string string)
    (n e old new : string) :
  body request = Some b →
  b !! "name" = Some n → n ≠ "" →
  b !! "email" = Some e → e ≠ "" →
  b !! "oldPassword" = Some old → old ≠ "" →
  b !! "newPassword" = Some new → 6 ≤ String.length new →
  old ≠ new →
  (∀ u, u ∈ db → User.email u ≠ Js.toLowerCase e ∧
                 User.email u ≠ Js.trim (Js.toLowerCase e)) →
  ∃ saved,
    POST db request =
      (db ++ [saved],
       {| status := 200;
          payload :=
            JObj [("success", JBool true);
                  ("data",
                   JObj [("user",
                          JObj [("_id", JNum (User._id saved));
                                ("name", JStr (User.name saved));
                                ("email", JStr (User.email saved));
                                ("role", JStr (User.role saved));
                                ("isActive",
                                 JBool (User.isActive saved))])]);
                  ("message", JStr "Account created successfully")] |}) ∧
    (∀ u, u ∈ db → User._id u ≠ User._id saved) ∧
    User.name saved = Js.trim n ∧
    User.email saved = Js.trim (Js.toLowerCase e) ∧
    User.password saved = hash_password new ∧
    User.role saved = default "tester" (b !! "role") ∧
    (b !! "role" = None → User.role saved = "tester") ∧
    User.isActive saved = true ∧
    (field "data" (payload (POST db request).2) ≫= field "user")
      = Some (userResponse saved) ∧
    keys (userResponse saved) = ["_id"; "name"; "email"; "role"; "isActive"].
Proof.
  intros Hb Hn ? He ? Hold ? Hnew Hlen Hdiff Hfree.
  assert (User.findOne db (Js.toLowerCase e) = None) as Hpre.
  { apply findOne_None. intros u Hu. by apply Hfree. }
  assert (HP : POST db request =
    (db ++ [User.new db (Js.trim n) (Js.trim (Js.toLowerCase e))
              (hash_password new) (default "tester" (b !! "role"))],
     account_created
       (User.new db (Js.trim n) (Js.trim (Js.toLowerCase e))
          (hash_password new) (default "tester" (b !! "role"))))).
  { unfold POST.
    rewrite (POST_created db request b n e old new) by done.
    rewrite save_new. rewrite bool_decide_eq_false_2; [done|].
    rewrite Exists_exists. intros (u & Hu & Heq). by apply (Hfree u Hu). }
  eexists. split; [exact HP|]. split_and!; try done.
  - intros u Hu Heq. simpl in Heq.
    assert (User._id u ≤ max_list (User._id <$> db)); [|lia].
    apply max_list_elem_of_le, list_elem_of_fmap. eauto.
  - intros Hrole. simpl. by rewrite Hrole.
  - rewrite HP. done.
Qed.

(** C9, as amended.  A valid request whose lower-cased email the
    pre-check does not find goes on to [save], with a document whose email
    is the lower-cased email trimmed.  If that email is the email of a
    stored record, [save] raises the duplicate-key error, the answer is
    the 400 conflict and nothing is stored.  In a store of trimmed emails
    the pre-check finds no email whose lower-cased form changes under
    [trim].  Such inputs exist: the pre-check passes although the email
    about to be saved is that of a stored record. *)
Theorem create_account_precheck_misses_untrimmed `{!OnAscii} :
  (∀ db request b n e old new,
     body request = Some b →
     b !! "name" = Some n → n ≠ "" →
     b !! "email" = Some e → e ≠ "" →
     b !! "oldPassword" = Some old → old ≠ "" →
     b !! "newPassword" = Some new → 6 ≤ String.length new →
     old ≠ new →
     User.findOne db (Js.toLowerCase e) = None →
     let doc :=
       User.new db (Js.trim n) (Js.trim (Js.toLowerCase e)) new
         (default "tester" (b !! "role")) in
     POST_try db request =
       ('(db', savedUser) ← User.save db doc;
        Ok (db', account_created savedUser)) ∧
     (∀ u, u ∈ db → User.email u = User.email doc →
           User.save db doc = Throw {| code := Some 11000%Z |} ∧
           POST db request =
             (db, failure "User with this email already exists" 400))) ∧
  (∀ db e,
     (∀ v, v ∈ db → Js.trim (User.email v) = User.email v) →
     Js.trim (Js.toLowerCase e) ≠ Js.toLowerCase e →
     User.findOne db (Js.toLowerCase e) = None) ∧
  (∃ db request b n e old new u,
     body request = Some b ∧
     b !! "name" = Some n ∧ n ≠ "" ∧
     b !! "email" = Some e ∧ e ≠ "" ∧
     b !! "oldPassword" = Some old ∧ old ≠ "" ∧
     b !! "newPassword" = Some new ∧ 6 ≤ String.length new ∧
     old ≠ new ∧
     User.findOne db (Js.toLowerCase e) = None ∧
     u ∈ db ∧ User.email u = Js.trim (Js.toLowerCase e) ∧
     POST db request =
       (db, failure "User with this email already exists" 400)).
Proof.
  assert (Hflow : ∀ db request b n e old new,
     body request = Some b →
     b !! "name" = Some n → n ≠ "" →
     b !! "email" = Some e → e ≠ "" →
     b !! "oldPassword" = Some old → old ≠ "" →
     b !! "newPassword" = Some new → 6 ≤ String.length new →
     old ≠ new →
     User.findOne db (Js.toLowerCase e) = None →
     let doc :=
       User.new db (Js.trim n) (Js.trim (Js.toLowerCase e)) new
         (default "tester" (b !! "role")) in
     POST_try db request =
       ('(db', savedUser) ← User.save db doc;
        Ok (db', account_created savedUser)) ∧
     (∀ u, u ∈ db → User.email u = User.email doc →
           User.save db doc = Throw {| code := Some 11000%Z |} ∧
           POST db request =
             (db, failure "User with this email already exists" 400))).
  { intros db request b n e old new Hb Hn ? He ? Hold ? Hnew Hlen Hdiff
      Hpre doc.
    assert (POST_try db request =
            ('(db', savedUser) ← User.save db doc;
             Ok (db', account_created savedUser))) as Htry.
    { by apply (POST_created db request b n e old new). }
    split; [exact Htry|]. intros u Hu Hemail.
    assert (User.save db doc = Throw {| code := Some 11000%Z |}) as Hsave.
    { unfold doc. rewrite save_new. rewrite bool_decide_eq_true_2; [done|].
      apply Exists_exists. eauto. }
    split; [exact Hsave|]. unfold POST. rewrite Htry, Hsave. done. }
  split; [exact Hflow|]. split.
  - intros db e Htrimmed Hspace. apply findOne_None. intros v Hv Heq.
    apply Hspace. rewrite <- Heq. by apply Htrimmed.
  - assert (Js.toLowerCase " A@x.com " = " a@x.com ") as Hlower.
    { by rewrite toLowerCase_ascii. }
    assert (Js.trim " a@x.com " = "a@x.com") as Htrim.
    { by rewrite trim_ascii. }
    exists Demo.db,
      (Demo.request None
         [("name", "Al"); ("email", " A@x.com ");
          ("oldPassword", "default1"); ("newPassword", "secret1")]),
      (list_to_map
         [("name", "Al"); ("email", " A@x.com ");
          ("oldPassword", "default1"); ("newPassword", "secret1")]),
      "Al", " A@x.com ", "default1", "secret1", Demo.alice.
    assert (User.findOne Demo.db (Js.toLowerCase " A@x.com ") = None)
      as Hpre by (by rewrite Hlower).
    split_and!;
      [done | done | done | done | done | done | done | done
      | simpl; lia | done | exact Hpre | apply list_elem_of_here
      | by rewrite Hlower, Htrim |].
    eapply (Hflow Demo.db _ _ "Al" " A@x.com " "default1" "secret1");
      [reflexivity | reflexivity | done | reflexivity | done | reflexivity
      | done | reflexivity | simpl; lia | done | exact Hpre
      | apply list_elem_of_here |].
    simpl. by rewrite Hlower, Htrim.
Qed.

End AccountCreation.

(** ** Empty fields *)

Section EmptyFields.

Context `{Js.Strings} `{PasswordHasher}.
Variable getUserFromRequest : NextRequest → option UserPayload.

Lemma falsy_empty_or_absent (v : option string) :
  v = Some "" ∨ v = None → Js.falsy v = true.
Proof. by intros [->| ->]. Qed.

(** C10, as amended.  A field that is the empty string is treated as an
    absent one.  A creation request in which name, email, oldPassword or
    newPassword is empty or absent is answered 400 "All fields are
    required".  A change request whose caller identity resolves and in
    which oldPassword or newPassword is empty or absent is answered 400
    "Old password and new password are required"; without a caller
    identity the answer is 401 whatever the fields hold. *)
Theorem empty_field_counts_as_missing
    (db : list User.t) (request : NextRequest) (b : gmap string string)
    (k : string) :
  body request = Some b →
  b !! k = Some "" ∨ b !! k = None →
  (k ∈ ["name"; "email"; "oldPassword"; "newPassword"] →
   POST db request = (db, failure "All fields are required" 400)) ∧
  (k ∈ ["oldPassword"; "newPassword"] →
   is_Some (getUserFromRequest request) →
   PUT getUserFromRequest db request =
     (db, failure "Old password and new password are required" 400)) ∧
  (getUserFromRequest request = None →
   PUT getUserFromRequest db request = (db, failure "Unauthorized" 401)).
Proof.
  intros Hb Hk%falsy_empty_or_absent. split_and!.
  - intros Hin. unfold POST, POST_try, request_json. rewrite Hb. simpl.
    repeat (apply elem_of_cons in Hin as [->|Hin];
            [rewrite Hk; simpl; by rewrite ?orb_true_r|]).
    by apply elem_of_nil in Hin.
  - intros Hin [userPayload Hid].
    unfold PUT, PUT_try, request_json. rewrite Hid, Hb. simpl.
    repeat (apply elem_of_cons in Hin as [->|Hin];
            [rewrite Hk; simpl; by rewrite ?orb_true_r|]).
    by apply elem_of_nil in Hin.
  - intros Hid. unfold PUT, PUT_try. by rewrite Hid.
Qed.

End EmptyFields.

(** ** The form controller *)

Lemma append_cons (x : ascii) (a b : string) :
  String x a +:+ b = String x (a +:+ b).
Proof. reflexivity. Qed.

Lemma append_assoc (a b c : string) : (a +:+ b) +:+ c = a +:+ (b +:+ c).
Proof.
  induction a as [|x a IH]; [done|]. rewrite !append_cons. by rewrite IH.
Qed.

Lemma prefix_spec (sub s : string) :
  String.prefix sub s = true ↔ ∃ t, s = sub +:+ t.
Proof.
  revert s. induction sub as [|x sub IH]; intros [|y s]; simpl.
  - split; eauto.
  - split; eauto.
  - split; [done|]. intros [t Ht]. done.
  - destruct (ascii_dec x y) as [->|Hne].
    + rewrite IH. split.
      * intros [t ->]. by exists t.
      * intros [t Ht]. rewrite append_cons in Ht.
        injection Ht as ->. by exists t.
    + split; [done|]. intros [t Ht]. rewrite append_cons in Ht.
      congruence.
Qed.

Lemma includes_nil (sub : string) :
  Js.includes "" sub = String.prefix sub "" || false.
Proof. reflexivity. Qed.

Lemma includes_cons (x : ascii) (s sub : string) :
  Js.includes (String x s) sub
  = String.prefix sub (String x s) || Js.includes s sub.
Proof. reflexivity. Qed.

(** [includes] decides the substring relation. *)
Lemma includes_spec (s sub : string) :
  Js.includes s sub = true ↔ ∃ a t, s = a +:+ sub +:+ t.
Proof.
  induction s as [|x s IH].
  - rewrite includes_nil, orb_false_r, prefix_spec. split.
    + intros [t Ht]. by exists "", t.
    + intros (a & t & Hs). destruct a; [by exists t|done].
  - rewrite includes_cons, orb_true_iff, prefix_spec, IH. split.
    + intros [[t Ht]|(a & t & ->)].
      * by exists "", t.
      * by exists (String x a), t.
    + intros ([|y a] & t & Hs).
      * left. by exists t.
      * right. rewrite append_cons in Hs. injection Hs as -> ->.
        by exists a, t.
Qed.

Lemma includes_current_password (s : string) :
  Js.includes s "Current password is incorrect" = true →
  Js.includes s "password" = true.
Proof.
  rewrite !includes_spec. intros (a & t & ->).
  exists (a +:+ "Current "), (" is incorrect" +:+ t).
  by rewrite append_assoc.
Qed.

Lemma errorMessage_server (m : string) :
  m ≠ "" → ChangePasswordPage.errorMessage (Some m) = m.
Proof.
  intros Hm. unfold ChangePasswordPage.errorMessage.
  by rewrite falsy_Some.
Qed.

Lemma handleSubmit_rejected
    (st : ChangePasswordPage.State) (response_data_error : option string) :
  ChangePasswordPage.submits st = true →
  ChangePasswordPage.handleSubmit st
    (ChangePasswordPage.Rejected response_data_error)
  = ChangePasswordPage.handleSubmit_catch st response_data_error.
Proof.
  unfold ChangePasswordPage.submits, ChangePasswordPage.handleSubmit.
  intros [-> Hreg]%andb_true_iff. simpl.
  destruct (ChangePasswordPage.isRegistrationFlow st); [|done].
  destruct (ChangePasswordPage.registrationData st); [|done].
  by rewrite Hreg.
Qed.

(** C8. When the call made by [handleSubmit] is rejected, the message of
    the error is the server's [error] string if there is one.  If
    "password" occurs in the message, the message becomes the error of the
    oldPassword field and there is no general error; otherwise it becomes
    the general error and the oldPassword field has none.  The newPassword
    field is given no error either way. *)
Theorem server_error_routing
    (st : ChangePasswordPage.State) (response_data_error : option string) :
  ChangePasswordPage.submits st = true →
  let msg := ChangePasswordPage.errorMessage response_data_error in
  let errors :=
    ChangePasswordPage.fieldErrors
      (ChangePasswordPage.handleSubmit st
         (ChangePasswordPage.Rejected response_data_error)) in
  (∀ m, response_data_error = Some m → m ≠ "" → msg = m) ∧
  ((∃ a t, msg = a +:+ "password" +:+ t) →
   errors = {| FieldErrors.oldPassword := Some msg;
               FieldErrors.newPassword := None;
               FieldErrors.general := None |}) ∧
  (¬ (∃ a t, msg = a +:+ "password" +:+ t) →
   errors = {| FieldErrors.oldPassword := None;
               FieldErrors.newPassword := None;
               FieldErrors.general := Some msg |}) ∧
  FieldErrors.newPassword errors = None.
Proof.
  intros Hsub msg errors. subst errors.
  rewrite handleSubmit_rejected by done.
  unfold ChangePasswordPage.handleSubmit_catch. fold msg.
  split; [intros m -> Hm; by apply errorMessage_server|].
  destruct (Js.includes msg "password") eqn:Hinc.
  - rewrite orb_true_r. simpl. split_and!; [done| |done].
    intros Hno. exfalso. apply Hno. by apply includes_spec.
  - destruct (Js.includes msg "Current password is incorrect") eqn:Hcur.
    { apply includes_current_password in Hcur. congruence. }
    simpl. split_and!; [|done|done].
    intros Hyes%includes_spec. congruence.
Qed.

(** ** The properties at work on the example store *)

(** Closes a side condition that holds by evaluation. *)
Ltac evaluate := first [reflexivity | discriminate | simpl; lia].

(** The functions on ASCII text are a pair of the kind the handlers are
    stated over. *)
Lemma plain_on_ascii : @OnAscii Plain.strings.
Proof. by split. Qed.

Lemma tag_hasher_laws : @PasswordHasherLaws Demo.tag_hasher.
Proof.
  split; simpl.
  - intros p. apply String.eqb_refl.
  - intros p q h Heq. apply String.eqb_eq in Heq.
    change (q = p) in Heq. by subst.
Qed.

Lemma change_password_succeeds_witness :
  ∃ i, Demo.db !! i = Some Demo.alice ∧
       @PUT Demo.tag_hasher Demo.session_resolver
         Demo.db Demo.change_alice
       = (<[i := User.set_password Demo.alice "h$secret1"]> Demo.db,
          password_changed).
Proof.
  destruct (@change_password_succeeds Demo.tag_hasher
              Demo.session_resolver tag_hasher_laws
              Demo.db Demo.change_alice {| userId := 1 |}
              (list_to_map [("oldPassword", "default1");
                            ("newPassword", "secret1")])
              "default1" "secret1" Demo.alice)
    as (i & Hi & Hput & _); [evaluate..|].
  exists i. split; [exact Hi | exact Hput].
Defined.

Lemma change_password_frame_witness :
  ∃ i user user',
    Demo.db !! i = Some user ∧
    User.password user' ≠ User.password user ∧
    User.email user' = User.email user.
Proof.
  destruct (@change_password_frame Demo.tag_hasher
              Demo.session_resolver tag_hasher_laws
              Demo.db
              [User.set_password Demo.alice "h$secret1"; Demo.bob]
              Demo.change_alice password_changed eq_refl)
    as [_ Hok].
  destruct (Hok eq_refl)
    as (i & user & user' & Hi & _ & _ & _ & _ & Hpw & _ & _ & Hemail & _).
  exists i, user, user'. split; [exact Hi|]. split; [exact Hpw|exact Hemail].
Defined.

Lemma change_password_checks_in_order_witness :
  @PUT Demo.tag_hasher Demo.session_resolver Demo.db
    (Demo.request (Some "tok-bob")
       [("oldPassword", "hunter22"); ("newPassword", "secret1")])
  = (Demo.db, failure "Account is deactivated" 401).
Proof.
  destruct (@change_password_checks_in_order Demo.tag_hasher
              Demo.session_resolver Demo.db
              (Demo.request (Some "tok-bob")
                 [("oldPassword", "hunter22"); ("newPassword", "secret1")]))
    as [_ Hchecks].
  destruct (Hchecks {| userId := 2 |}
              (list_to_map [("oldPassword", "hunter22");
                            ("newPassword", "secret1")])
              eq_refl eq_refl) as [_ Hfields].
  destruct (Hfields "hunter22" "secret1") as [_ Hlong];
    [reflexivity | discriminate | reflexivity | discriminate |].
  destruct Hlong as [_ Hrecord]; [simpl; lia|].
  destruct (Hrecord Demo.bob eq_refl) as [Hinactive _].
  exact (Hinactive eq_refl).
Defined.

Lemma change_password_replay_rejected_witness :
  @PUT Demo.tag_hasher Demo.session_resolver
    [User.set_password Demo.alice "h$secret1"; Demo.bob]
    Demo.change_alice
  = ([User.set_password Demo.alice "h$secret1"; Demo.bob],
     failure "Current password is incorrect" 400).
Proof.
  exact (@change_password_replay_rejected Demo.tag_hasher
           Demo.session_resolver tag_hasher_laws
           Demo.db
           [User.set_password Demo.alice "h$secret1"; Demo.bob]
           Demo.change_alice password_changed eq_refl eq_refl).
Defined.

Lemma create_account_validation_witness :
  @POST Plain.strings Demo.tag_hasher Demo.db
    (Demo.request None
       [("name", "Al"); ("email", "a@x.com");
        ("oldPassword", "default1"); ("newPassword", "abc")])
  = (Demo.db,
     failure "New password must be at least 6 characters long" 400).
Proof.
  destruct (@create_account_validation Plain.strings Demo.tag_hasher Demo.db
              (Demo.request None
                 [("name", "Al"); ("email", "a@x.com");
                  ("oldPassword", "default1"); ("newPassword", "abc")])
              (list_to_map
                 [("name", "Al"); ("email", "a@x.com");
                  ("oldPassword", "default1"); ("newPassword", "abc")])
              eq_refl) as (_ & Hpresent & _).
  destruct (Hpresent "Al" "a@x.com" "default1" "abc") as [Hshort _];
    [evaluate..|].
  apply Hshort. simpl. lia.
Defined.

(** The scenario of the specification: creating an account in an empty
    store succeeds, and the same call repeated is a conflict. *)
Example create_twice :
  let request :=
    Demo.request None
      [("name", "A"); ("email", "a@x.com");
       ("oldPassword", "default1"); ("newPassword", "secret1")] in
  let record := User.mk 1 "A" "a@x.com" "h$secret1" "tester" true in
  @POST Plain.strings Demo.tag_hasher [] request
  = ([record], account_created record) ∧
  @POST Plain.strings Demo.tag_hasher [record] request
  = ([record], failure "User with this email already exists" 400).
Proof. split; reflexivity. Qed.



(** C6 as stated fails: all fields are present, the new password is long
    enough and differs from the old one, and the lookup of the lower-cased
    email finds no record; still the answer is the 400 conflict and no
    record is stored, because the email trimmed is that of a stored
    record. *)
Lemma create_account_succeeds_counterexample :
  let request :=
    Demo.request None
      [("name", "Al"); ("email", " A@x.com ");
       ("oldPassword", "default1"); ("newPassword", "secret1")] in
  User.findOne Demo.db (@Js.toLowerCase Plain.strings " A@x.com ") = None ∧
  @POST Plain.strings Demo.tag_hasher Demo.db request
  = (Demo.db, failure "User with this email already exists" 400) ∧
  status (@POST Plain.strings Demo.tag_hasher Demo.db request).2 ≠ 200.
Proof. split; [reflexivity|]. split; [reflexivity|discriminate]. Qed.

Lemma create_account_succeeds_witness :
  ∃ saved,
    (@POST Plain.strings Demo.tag_hasher Demo.db Demo.create_carl).1
    = Demo.db ++ [saved] ∧
    User.name saved = "Carl" ∧ User.email saved = "carl@x.com" ∧
    User.password saved = "h$secret1" ∧ User.role saved = "tester".
Proof.
  destruct (@create_account_succeeds Plain.strings Demo.tag_hasher Demo.db
              Demo.create_carl
              (list_to_map
                 [("name", " Carl "); ("email", " Carl@X.com ");
                  ("oldPassword", "default1"); ("newPassword", "secret1")])
              " Carl " " Carl@X.com " "default1" "secret1")
    as (saved & Hpost & _ & Hname & Hemail & Hpw & Hrole & _);
    [evaluate..| |].
  - intros u Hu. apply elem_of_cons in Hu as [->|Hu]; [split; discriminate|].
    apply elem_of_cons in Hu as [->|Hu]; [split; discriminate|].
    by apply elem_of_nil in Hu.
  - exists saved. rewrite Hpost. split; [reflexivity|].
    split; [exact Hname|]. split; [exact Hemail|].
    split; [exact Hpw|exact Hrole].
Defined.

Lemma create_account_precheck_misses_untrimmed_witness :
  @User.save Demo.tag_hasher Demo.db
    (User.new Demo.db "Al" "a@x.com" "secret1" "tester")
  = Throw {| code := Some 11000%Z |} ∧
  @POST Plain.strings Demo.tag_hasher Demo.db
    (Demo.request None
       [("name", "Al"); ("email", " A@x.com ");
        ("oldPassword", "default1"); ("newPassword", "secret1")])
  = (Demo.db, failure "User with this email already exists" 400).
Proof.
  destruct (@create_account_precheck_misses_untrimmed Plain.strings
              Demo.tag_hasher plain_on_ascii) as [Hflow _].
  destruct (Hflow Demo.db
              (Demo.request None
                 [("name", "Al"); ("email", " A@x.com ");
                  ("oldPassword", "default1"); ("newPassword", "secret1")])
              (list_to_map
                 [("name", "Al"); ("email", " A@x.com ");
                  ("oldPassword", "default1"); ("newPassword", "secret1")])
              "Al" " A@x.com " "default1" "secret1") as [_ Hdup];
    [evaluate..|].
  apply (Hdup Demo.alice); [apply list_elem_of_here|reflexivity].
Defined.

(** C10 as stated fails: without a caller identity an empty oldPassword
    is answered 401, not with the 400 for missing fields. *)
Lemma empty_field_counterexample :
  let request :=
    Demo.request None
      [("oldPassword", ""); ("newPassword", "secret1")] in
  body request ≫= (.!! "oldPassword") = Some "" ∧
  @PUT Demo.tag_hasher Demo.session_resolver Demo.db request
  = (Demo.db, failure "Unauthorized" 401) ∧
  @PUT Demo.tag_hasher Demo.session_resolver Demo.db request
  ≠ (Demo.db,
     failure "Old password and new password are required" 400).
Proof. split; [reflexivity|]. split; [reflexivity|discriminate]. Qed.

Lemma empty_field_counts_as_missing_witness :
  @PUT Demo.tag_hasher Demo.session_resolver Demo.db
    (Demo.request (Some "tok-alice")
       [("oldPassword", ""); ("newPassword", "secret1")])
  = (Demo.db,
     failure "Old password and new password are required" 400).
Proof.
  destruct (@empty_field_counts_as_missing Plain.strings Demo.tag_hasher
              Demo.session_resolver Demo.db
              (Demo.request (Some "tok-alice")
                 [("oldPassword", ""); ("newPassword", "secret1")])
              (list_to_map [("oldPassword", ""); ("newPassword", "secret1")])
              "oldPassword" eq_refl (or_introl eq_refl))
    as (_ & Hput & _).
  apply Hput; [apply list_elem_of_here|].
  exists {| userId := 1 |}. reflexivity.
Defined.

Lemma server_error_routing_witness :
  ChangePasswordPage.fieldErrors
    (ChangePasswordPage.handleSubmit Demo.page
       (ChangePasswordPage.Rejected (Some "Failed to change password")))
  = {| FieldErrors.oldPassword := Some "Failed to change password";
       FieldErrors.newPassword := None;
       FieldErrors.general := None |}.
Proof.
  destruct (server_error_routing Demo.page
              (Some "Failed to change password") eq_refl)
    as (_ & Hfield & _).
  apply Hfield. exists "Failed to change ", "". reflexivity.
Defined.

(** * Further properties of the handlers *)

(** ** Lists of documents *)

Section Documents.

Context {A : Type} (P : A → Prop) `{!∀ x, Decision (P x)}.

(** Replacing an element that does not satisfy [P] by another that does
    not leaves the first hit of [P] where it was. *)
Lemma list_find_insert_miss (l : list A) (i : nat) (x y : A) :
  l !! i = Some x → ¬ P x → ¬ P y →
  list_find P (<[i := y]> l) = list_find P l.
Proof.
  revert i. induction l as [|z l IH]; intros i Hi Hx Hy; [done|].
  destruct i as [|i]; simpl in *.
  - injection Hi as ->. by rewrite !decide_False by done.
  - destruct (decide (P z)); [done|]. by rewrite (IH i).
Qed.

Lemma list_find_snoc_miss (l : list A) (y : A) :
  list_find P l = None → P y →
  list_find P (l ++ [y]) = Some (length l, y).
Proof.
  intros Hnone Hy. rewrite list_find_app_r by done. simpl.
  by rewrite decide_True.
Qed.

End Documents.

Lemma fmap_insert_same {A B : Type} (f : A → B) (l : list A) (i : nat)
    (x y : A) :
  l !! i = Some x → f y = f x → f <$> <[i := y]> l = f <$> l.
Proof.
  intros Hi Hf. rewrite list_fmap_insert, Hf.
  apply list_insert_id. by rewrite list_lookup_fmap, Hi.
Qed.

(** Names the failure response a goal asks for. *)
Ltac answer := right; eexists _, _; split; [reflexivity|set_solver].

(** ** Password change *)

Section PasswordChangeMore.

Context `{PasswordHasher}.
Variable getUserFromRequest : NextRequest → option UserPayload.

(** The responses the handler can give. *)
Lemma PUT_responses db request :
  (PUT getUserFromRequest db request).2 = password_changed ∨
  ∃ msg st,
    (PUT getUserFromRequest db request).2 = failure msg st ∧
    (msg, st) ∈
      [("Unauthorized", 401);
       ("Old password and new password are required", 400);
       ("New password must be at least 6 characters long", 400);
       ("User not found", 404);
       ("Account is deactivated", 401);
       ("Current password is incorrect", 400);
       ("New password must be different from current password", 400);
       ("Failed to change password", 500)].
Proof.
  unfold PUT, PUT_try, request_json.
  destruct (getUserFromRequest request) as [userPayload|]; [|answer].
  destruct (body request) as [b|]; [|answer]. simpl.
  destruct (Js.falsy (b !! "oldPassword")); [answer|].
  destruct (Js.falsy (b !! "newPassword")); [answer|]. simpl.
  destruct (String.length (Js.str (b !! "newPassword")) <? 6); [answer|].
  destruct (User.findById db (userId userPayload)) as [user|] eqn:Hfind;
    [|answer].
  destruct (User.isActive user); [|answer]. simpl.
  destruct (User.comparePassword user (Js.str (b !! "oldPassword")));
    [|answer]. simpl.
  destruct (User.comparePassword user (Js.str (b !! "newPassword")));
    [answer|].
  destruct (save_fetched db _ user (Js.str (b !! "newPassword")) Hfind)
    as (i & _ & ->). by left.
Qed.

(** X1. The change-password handler answers with status 200, 400, 401,
    404 or 500 and nothing else.  The [success] flag of the payload is
    true exactly when the status is 200; a 200 payload has the keys
    [success] and [message], every other payload [success] and
    [error]. *)
Theorem change_password_response_shape
    (db : list User.t) (request : NextRequest) :
  let r := (PUT getUserFromRequest db request).2 in
  status r ∈ [200; 400; 401; 404; 500] ∧
  field "success" (payload r) = Some (JBool (bool_decide (status r = 200))) ∧
  keys (payload r) =
    (if bool_decide (status r = 200) then ["success"; "message"]
     else ["success"; "error"]) ∧
  (status r ≠ 200 → ∃ msg, field "error" (payload r) = Some (JStr msg)).
Proof.
  simpl. destruct (PUT_responses db request) as [->|(msg & st & -> & Hin)].
  - split_and!; [set_solver|done|done|done].
  - repeat (apply elem_of_cons in Hin as [[= -> ->]|Hin];
            [split_and!; [set_solver|done|done|by eexists]|]).
    by apply elem_of_nil in Hin.
Qed.

(** X2. A password change never touches the record of anyone but the
    caller: a lookup by any identifier other than the resolved caller's
    gives the same document before and after the call. *)
Theorem change_password_only_own_record
    (db : list User.t) (request : NextRequest) (id : nat) :
  (∀ p, getUserFromRequest request = Some p → userId p ≠ id) →
  User.findById (PUT getUserFromRequest db request).1 id
  = User.findById db id.
Proof.
  intros Hother.
  destruct (PUT_inv getUserFromRequest db request)
    as [[_ ->]|(user & old & new & Hacc)]; [done|].
  pose proof Hacc as (p & b & Hid & _ & _ & _ & _ & _ & Hfind & _).
  apply PUT_accepted in Hacc as (i & Hi & ->). simpl.
  apply findById_id in Hfind. apply Hother in Hid.
  apply list_find_Some in Hi as (Hi & _ & _).
  unfold User.findById.
  rewrite (list_find_insert_miss _ db i user); [done|done|..]; simpl; lia.
Qed.

(** X3. A change request whose new password is the same string as its
    old password never succeeds, whatever the stored hash and whatever the
    comparison: the store is left as it was. *)
Theorem change_password_same_string_rejected
    (db : list User.t) (request : NextRequest) (b : gmap string string) :
  body request = Some b →
  b !! "oldPassword" = b !! "newPassword" →
  status (PUT getUserFromRequest db request).2 ≠ 200 ∧
  (PUT getUserFromRequest db request).1 = db.
Proof.
  intros Hb Hsame.
  destruct (PUT_inv getUserFromRequest db request)
    as [?|(user & old & new & Hacc)]; [done|].
  destruct Hacc as (p & b' & _ & Hb' & Hold & _ & Hnew & _ & _ & _
                    & Hcmp & Hrej).
  rewrite Hb in Hb'. injection Hb' as <-.
  rewrite Hold, Hnew in Hsame. injection Hsame as ->. congruence.
Qed.

(** X4. No password change adds, removes or reorders records, nor alters
    an identifier, name, email, role or active flag; a store whose
    identifiers and emails are unique stays so. *)
Theorem change_password_preserves_keys
    (db : list User.t) (request : NextRequest) :
  let db' := (PUT getUserFromRequest db request).1 in
  length db' = length db ∧
  User._id <$> db' = User._id <$> db ∧
  User.name <$> db' = User.name <$> db ∧
  User.email <$> db' = User.email <$> db ∧
  User.role <$> db' = User.role <$> db ∧
  User.isActive <$> db' = User.isActive <$> db ∧
  (unique_keys db → unique_keys db').
Proof.
  simpl.
  destruct (PUT_inv getUserFromRequest db request)
    as [[_ ->]|(user & old & new & Hacc)]; [done|].
  apply PUT_accepted in Hacc as (i & Hi & ->). simpl.
  apply list_find_Some in Hi as (Hi & _ & _).
  unfold unique_keys.
  rewrite length_insert, !(fmap_insert_same _ db i user) by done. done.
Qed.

(** A second change, made with the password that the first one set. *)
Lemma PUT_chain `{!PasswordHasherLaws}
    (db db1 : list User.t) (r1 r2 : NextRequest) (resp1 : NextResponse)
    (b1 b2 : gmap string string) (new1 new2 : string) :
  PUT getUserFromRequest db r1 = (db1, resp1) →
  status resp1 = 200 →
  body r1 = Some b1 → b1 !! "newPassword" = Some new1 →
  getUserFromRequest r2 = getUserFromRequest r1 →
  body r2 = Some b2 →
  b2 !! "oldPassword" = Some new1 →
  b2 !! "newPassword" = Some new2 → 6 ≤ String.length new2 →
  verify_password (hash_password new1) new2 = false →
  ∃ i user,
    db1 !! i = Some user ∧
    PUT getUserFromRequest db1 r2 =
      (<[i := User.set_password user (hash_password new2)]> db1,
       password_changed).
Proof.
  intros Hput Hok Hb1 Hnew1 Hsame Hb2 Hold2 Hnew2 Hlen2 Hfresh.
  destruct (PUT_inv getUserFromRequest db r1)
    as [[Hst _]|(user & old & new & Hacc)].
  { rewrite Hput in Hst. done. }
  pose proof Hacc as (p & b & Hid & Hb & _ & _ & Hnew & Hlen & Hfind
                      & Hact & _ & _).
  rewrite Hb1 in Hb. injection Hb as <-.
  rewrite Hnew1 in Hnew. injection Hnew as <-.
  apply PUT_accepted in Hacc as (i & Hi & Hput').
  rewrite Hput in Hput'. injection Hput' as -> _.
  pose proof (findById_id _ _ _ Hfind) as Huid.
  destruct (PUT_accepted getUserFromRequest
              (<[i := User.set_password user (hash_password new1)]> db)
              r2 (User.set_password user (hash_password new1)) new1 new2)
    as (j & Hj & Hput2).
  { exists p, b2. split_and!; try done.
    - by rewrite Hsame.
    - by apply length_nonempty.
    - rewrite <- Huid. eapply findById_insert; [exact Hi|done].
    - unfold User.comparePassword. simpl. apply verify_hash. }
  apply list_find_Some in Hj as (Hj & _ & _). eauto.
Qed.

(** X5. Password changes chain: after a successful change to [new1], a
    request by the same caller that gives [new1] as the old password and
    a further password of at least six characters, one that the hash of
    [new1] does not accept, succeeds in turn. *)
Theorem change_password_chain `{!PasswordHasherLaws}
    (db db1 : list User.t) (r1 r2 : NextRequest) (resp1 : NextResponse)
    (b1 b2 : gmap string string) (new1 new2 : string) :
  PUT getUserFromRequest db r1 = (db1, resp1) →
  status resp1 = 200 →
  body r1 = Some b1 → b1 !! "newPassword" = Some new1 →
  getUserFromRequest r2 = getUserFromRequest r1 →
  body r2 = Some b2 →
  b2 !! "oldPassword" = Some new1 →
  b2 !! "newPassword" = Some new2 → 6 ≤ String.length new2 →
  verify_password (hash_password new1) new2 = false →
  ∃ i user,
    db1 !! i = Some user ∧
    PUT getUserFromRequest db1 r2 =
      (<[i := User.set_password user (hash_password new2)]> db1,
       password_changed).
Proof. apply PUT_chain. Qed.

(** X23. No history of passwords is kept: right after a successful change
    from [old1] to [new1], the same caller can change back to [old1],
    provided [old1] has at least six characters. *)
Theorem change_password_can_revert `{!PasswordHasherLaws}
    (db db1 : list User.t) (r1 r2 : NextRequest) (resp1 : NextResponse)
    (b1 b2 : gmap string string) (old1 new1 : string) :
  PUT getUserFromRequest db r1 = (db1, resp1) →
  status resp1 = 200 →
  body r1 = Some b1 →
  b1 !! "oldPassword" = Some old1 → b1 !! "newPassword" = Some new1 →
  6 ≤ String.length old1 →
  getUserFromRequest r2 = getUserFromRequest r1 →
  body r2 = Some b2 →
  b2 !! "oldPassword" = Some new1 → b2 !! "newPassword" = Some old1 →
  ∃ i user,
    db1 !! i = Some user ∧
    PUT getUserFromRequest db1 r2 =
      (<[i := User.set_password user (hash_password old1)]> db1,
       password_changed).
Proof.
  intros Hput Hok Hb1 Hold1 Hnew1 Hlen Hsame Hb2 Hold2 Hnew2.
  eapply (PUT_chain db db1 r1 r2 resp1 b1 b2 new1 old1); try done.
  destruct (PUT_inv getUserFromRequest db r1)
    as [[Hst _]|(user & old & new & Hacc)].
  { rewrite Hput in Hst. done. }
  destruct Hacc as (p & b & _ & Hb & Hold & _ & Hnew & _ & _ & _
                    & Hcmp & Hrej).
  rewrite Hb1 in Hb. injection Hb as <-.
  rewrite Hold1 in Hold. injection Hold as <-.
  rewrite Hnew1 in Hnew. injection Hnew as <-.
  exact (stale_password_refused user new1 old1 Hrej Hcmp).
Qed.

End PasswordChangeMore.

(** ** Account creation *)

Section AccountCreationMore.

Context `{Js.Strings} `{PasswordHasher}.

(** A 200 response is only produced past all checks and a successful
    insert; every other response leaves the store as it was. *)
Lemma POST_inv db request :
  (status (POST db request).2 ≠ 200 ∧ (POST db request).1 = db ∧
   ∃ msg st,
     (POST db request).2 = failure msg st ∧
     (msg, st) ∈
       [("All fields are required", 400);
        ("New password must be at least 6 characters long", 400);
        ("New password must be different from the old password", 400);
        ("User with this email already exists", 400);
        ("Failed to create account", 500)]) ∨
  (∃ b n e old new,
     body request = Some b ∧
     b !! "name" = Some n ∧ n ≠ "" ∧ b !! "email" = Some e ∧ e ≠ "" ∧
     b !! "oldPassword" = Some old ∧ old ≠ "" ∧
     b !! "newPassword" = Some new ∧ 6 ≤ String.length new ∧ old ≠ new ∧
     User.findOne db (Js.toLowerCase e) = None ∧
     ¬ Exists (λ u, User.email u = Js.trim (Js.toLowerCase e)) db ∧
     let saved :=
       User.new db (Js.trim n) (Js.trim (Js.toLowerCase e))
         (hash_password new) (default "tester" (b !! "role")) in
     POST db request = (db ++ [saved], account_created saved)).
Proof.
  destruct (body request) as [b|] eqn:Hb.
  2:{ left. unfold POST, POST_try, request_json. rewrite Hb. simpl.
      split; [lia|]. split; [done|]. eexists _, _. split; [done|set_solver]. }
  destruct (POST_invalid db request b Hb)
    as [(msg & Hpost & Hmsg)|(n & e & old & new & Hn & ? & He & ? & Hold & ?
                              & Hnew & Hlen & Hdiff)].
  { left. rewrite Hpost. simpl. split; [lia|]. split; [done|].
    eexists _, _. split; [done|].
    repeat (apply elem_of_cons in Hmsg as [->|Hmsg];
            [repeat first [apply list_elem_of_here
                          |apply list_elem_of_further]|]).
    by apply elem_of_nil in Hmsg. }
  destruct (User.findOne db (Js.toLowerCase e)) as [u|] eqn:Hpre.
  { left. unfold POST, POST_try, request_json. rewrite Hb. simpl.
    rewrite Hn, He, Hold, Hnew.
    rewrite !falsy_Some by auto using length_nonempty. simpl.
    destruct (Nat.ltb_spec (String.length new) 6); [lia|].
    apply String.eqb_neq in Hdiff. rewrite Hdiff, Hpre. simpl.
    split; [lia|]. split; [done|]. eexists _, _. split; [done|set_solver]. }
  unfold POST. rewrite (POST_created db request b n e old new) by done.
  rewrite save_new.
  destruct (decide (Exists (λ u, User.email u = Js.trim (Js.toLowerCase e))
                      db)) as [Hdup|Hfree].
  - left. rewrite bool_decide_eq_true_2 by done. simpl.
    split; [lia|]. split; [done|]. eexists _, _. split; [done|set_solver].
  - right. rewrite bool_decide_eq_false_2 by done.
    exists b, n, e, old, new. done.
Qed.

(** X6. The account-creation handler answers with status 200, 400 or 500
    and nothing else.  The [success] flag of the payload is true exactly
    when the status is 200; a 200 payload has the keys [success], [data]
    and [message], every other payload [success] and [error]. *)
Theorem create_account_response_shape
    (db : list User.t) (request : NextRequest) :
  let r := (POST db request).2 in
  status r ∈ [200; 400; 500] ∧
  field "success" (payload r) = Some (JBool (bool_decide (status r = 200))) ∧
  keys (payload r) =
    (if bool_decide (status r = 200) then ["success"; "data"; "message"]
     else ["success"; "error"]) ∧
  (status r ≠ 200 → ∃ msg, field "error" (payload r) = Some (JStr msg)).
Proof.
  simpl. destruct (POST_inv db request)
    as [(_ & _ & msg & st & -> & Hin)
       |(b & n & e & old & new & _ & _ & _ & _ & _ & _ & _ & _ & _ & _ & _
         & _ & ->)].
  - repeat (apply elem_of_cons in Hin as [[= -> ->]|Hin];
            [split_and!; [set_solver|done|done|by eexists]|]).
    by apply elem_of_nil in Hin.
  - split_and!; [set_solver|done|done|done].
Qed.

(** X7. Account creation only ever appends.  Unless the answer is 200 the
    store is left as it was; with a 200 exactly one record is added at the
    end, under an identifier that no stored record has.  In either case
    every record that was stored is still there, in place and
    unaltered. *)
Theorem create_account_appends
    (db : list User.t) (request : NextRequest) :
  let db' := (POST db request).1 in
  let r := (POST db request).2 in
  (status r ≠ 200 → db' = db) ∧
  (status r = 200 →
   ∃ u, db' = db ++ [u] ∧ ∀ v, v ∈ db → User._id v ≠ User._id u) ∧
  (∀ i u, db !! i = Some u → db' !! i = Some u).
Proof.
  simpl. destruct (POST_inv db request)
    as [(Hst & -> & _)
       |(b & n & e & old & new & _ & _ & _ & _ & _ & _ & _ & _ & _ & _ & _
         & _ & ->)].
  - done.
  - simpl. split_and!; [done| |].
    + intros _. eexists. split; [done|]. intros v Hv Heq. simpl in Heq.
      assert (User._id v ≤ max_list (User._id <$> db)); [|lia].
      apply max_list_elem_of_le, list_elem_of_fmap. eauto.
    + intros i u Hi. by apply lookup_app_l_Some.
Qed.

(** X8. Account creation keeps identifiers and emails unique. *)
Theorem create_account_preserves_unique_keys
    (db : list User.t) (request : NextRequest) :
  unique_keys db → unique_keys (POST db request).1.
Proof.
  intros [Hids Hemails]. destruct (POST_inv db request)
    as [(_ & -> & _)
       |(b & n & e & old & new & _ & _ & _ & _ & _ & _ & _ & _ & _ & _ & _
         & Hfree & ->)]; [done|].
  simpl. unfold unique_keys. rewrite !fmap_app. simpl. split.
  - apply NoDup_app. split_and!; [done| |apply NoDup_singleton].
    intros id Hid ->%list_elem_of_singleton.
    apply list_elem_of_fmap in Hid as (v & Hv & Hin).
    assert (User._id v ≤ max_list (User._id <$> db)); [|lia].
    apply max_list_elem_of_le, list_elem_of_fmap. eauto.
  - apply NoDup_app. split_and!; [done| |apply NoDup_singleton].
    intros em Hem ->%list_elem_of_singleton.
    apply list_elem_of_fmap in Hem as (v & Hv & Hin).
    apply Hfree, Exists_exists. eauto.
Qed.

(** The duplicate check as a whole: the pre-check or, failing that, the
    unique index. *)
Lemma POST_taken db request b n e old new u :
  body request = Some b →
  b !! "name" = Some n → n ≠ "" →
  b !! "email" = Some e → e ≠ "" →
  b !! "oldPassword" = Some old → old ≠ "" →
  b !! "newPassword" = Some new → 6 ≤ String.length new →
  old ≠ new →
  u ∈ db → User.email u = Js.trim (Js.toLowerCase e) →
  POST db request = (db, failure "User with this email already exists" 400).
Proof.
  intros Hb Hn ? He ? Hold ? Hnew Hlen Hdiff Hu Hemail.
  destruct (User.findOne db (Js.toLowerCase e)) as [v|] eqn:Hpre.
  - unfold POST, POST_try, request_json. rewrite Hb. simpl.
    rewrite Hn, He, Hold, Hnew.
    rewrite !falsy_Some by auto using length_nonempty. simpl.
    destruct (Nat.ltb_spec (String.length new) 6); [lia|].
    apply String.eqb_neq in Hdiff. by rewrite Hdiff, Hpre.
  - unfold POST. rewrite (POST_created db request b n e old new) by done.
    rewrite save_new, bool_decide_eq_true_2; [done|].
    apply Exists_exists. eauto.
Qed.

(** X9. A valid creation request whose email, lower-cased and trimmed, is
    the email of a stored record is always answered with the 400 conflict
    and stores nothing, whether the pre-check finds the record or the
    unique index has to. *)
Theorem create_account_rejects_taken_email
    (db : list User.t) (request : NextRequest) (b : gmap string string)
    (n e old new : string) (u : User.t) :
  body request = Some b →
  b !! "name" = Some n → n ≠ "" →
  b !! "email" = Some e → e ≠ "" →
  b !! "oldPassword" = Some old → old ≠ "" →
  b !! "newPassword" = Some new → 6 ≤ String.length new →
  old ≠ new →
  u ∈ db → User.email u = Js.trim (Js.toLowerCase e) →
  POST db request = (db, failure "User with this email already exists" 400).
Proof. apply POST_taken. Qed.

(** X10. Replaying an account creation that has just succeeded is a
    conflict: the second call is answered 400 "User with this email
    already exists" and the store stays as the first call left it. *)
Theorem create_account_replay_conflicts
    (db db' : list User.t) (request : NextRequest)
    (response : NextResponse) :
  POST db request = (db', response) →
  status response = 200 →
  POST db' request =
    (db', failure "User with this email already exists" 400).
Proof.
  intros Hpost Hok. destruct (POST_inv db request)
    as [(Hst & _)
       |(b & n & e & old & new & Hb & Hn & ? & He & ? & Hold & ? & Hnew
         & Hlen & Hdiff & _ & _ & Hsaved)].
  { rewrite Hpost in Hst. done. }
  simpl in Hsaved. rewrite Hpost in Hsaved. injection Hsaved as -> _.
  eapply (POST_taken _ request b n e old new); try done.
  - apply elem_of_app. right. apply list_elem_of_singleton. done.
  - reflexivity.
Qed.

(** X11. The old password of a creation request is compared with nothing
    but the new password: two requests that differ only in their old
    password, each non-empty and different from the new password, have the
    same outcome. *)
Theorem create_account_ignores_old_password
    (db : list User.t) (auth : option string) (b : gmap string string)
    (old1 old2 : string) :
  old1 ≠ "" → old2 ≠ "" →
  b !! "newPassword" ≠ Some old1 → b !! "newPassword" ≠ Some old2 →
  POST db {| authorization := auth;
             body := Some (<["oldPassword" := old1]> b) |}
  = POST db {| authorization := auth;
               body := Some (<["oldPassword" := old2]> b) |}.
Proof.
  intros H1 H2 Hn1 Hn2. unfold POST, POST_try, request_json. simpl.
  rewrite !lookup_insert_eq, !lookup_insert_ne by done.
  rewrite !falsy_Some by done. simpl.
  destruct (Js.falsy (b !! "name")); [done|].
  destruct (Js.falsy (b !! "email")); [done|].
  destruct (b !! "newPassword") as [new|] eqn:Hnew; [|done].
  simpl. destruct (String.eqb new ""); [done|]. simpl.
  destruct (String.length new <? 6); [done|].
  assert (old1 ≠ new) as ->%String.eqb_neq by congruence.
  assert (old2 ≠ new) as ->%String.eqb_neq by congruence.
  done.
Qed.

(** X24. A record that has just been created is found again: by the
    identifier the 200 response reports and by the email it reports. *)
Theorem create_account_then_lookup
    (db db' : list User.t) (request : NextRequest)
    (response : NextResponse) :
  POST db request = (db', response) →
  status response = 200 →
  ∃ saved,
    field "data" (payload response) ≫= field "user"
      = Some (userResponse saved) ∧
    User.findById db' (User._id saved) = Some saved ∧
    User.findOne db' (User.email saved) = Some saved.
Proof.
  intros Hpost Hok. destruct (POST_inv db request)
    as [(Hst & _)
       |(b & n & e & old & new & _ & _ & _ & _ & _ & _ & _ & _ & _ & _ & _
         & Hfree & Hsaved)].
  { rewrite Hpost in Hst. done. }
  simpl in Hsaved. rewrite Hpost in Hsaved. injection Hsaved as -> ->.
  eexists. split; [done|]. split.
  - unfold User.findById.
    rewrite (list_find_snoc_miss _ db); [done|apply new_id_fresh|done].
  - unfold User.findOne.
    rewrite (list_find_snoc_miss _ db); [done| |done].
    apply list_find_None, Forall_forall. intros u Hu Heq.
    apply Hfree, Exists_exists. eauto.
Qed.

End AccountCreationMore.

(** C9 as stated fails: whatever the request, no record stored by the
    handler has the email of a record that was there before; the unique
    index refuses the save. *)
Lemma create_account_precheck_misses_untrimmed_counterexample :
  ¬ (∃ (S : Js.Strings) (H : PasswordHasher) db request u v,
        u ∈ db ∧ v ∈ (@POST S H db request).1 ∧ (v ∉ db) ∧
        User.email v = User.email u).
Proof.
  intros (S & H & db & request & u & v & Hu & Hv & Hnew & Hemail).
  destruct (POST_inv db request)
    as [(_ & Hdb & _)
       |(b & n & e & old & new & _ & _ & _ & _ & _ & _ & _ & _ & _ & _ & _
         & Hfree & Hpost)].
  - rewrite Hdb in Hv. done.
  - simpl in Hpost. rewrite Hpost in Hv. simpl in Hv.
    apply elem_of_app in Hv as [Hv|Hv%list_elem_of_singleton]; [done|].
    subst v. simpl in Hemail.
    apply Hfree, Exists_exists. eauto.
Qed.

(** ** Normal forms of emails *)

Lemma append_nil_r (s : string) : s +:+ "" = s.
Proof. induction s as [|c s IH]; [done|]. by rewrite append_cons, IH. Qed.

Lemma rev_app_spec (s acc : string) :
  String.rev_app s acc = String.rev s +:+ acc.
Proof.
  unfold String.rev. revert acc.
  induction s as [|c s IH]; intros acc; simpl; [done|].
  rewrite (IH (String c acc)), (IH (String c "")).
  by rewrite append_assoc.
Qed.

Lemma rev_cons (c : ascii) (s : string) :
  String.rev (String c s) = String.rev s +:+ String c "".
Proof. unfold String.rev at 1. simpl. apply rev_app_spec. Qed.

Lemma rev_append (s t : string) :
  String.rev (s +:+ t) = String.rev t +:+ String.rev s.
Proof.
  induction s as [|c s IH].
  - by rewrite append_nil_r.
  - by rewrite append_cons, !rev_cons, IH, append_assoc.
Qed.

Lemma rev_involutive (s : string) : String.rev (String.rev s) = s.
Proof.
  induction s as [|c s IH]; [done|].
  by rewrite rev_cons, rev_append, IH.
Qed.

Lemma toLowerChar_idemp (c : ascii) :
  Plain.toLowerChar (Plain.toLowerChar c) = Plain.toLowerChar c.
Proof. by destruct c as [[] [] [] [] [] [] [] []]. Qed.

Lemma toLowerChar_space (c : ascii) :
  Ascii.is_space (Plain.toLowerChar c) = Ascii.is_space c.
Proof. by destruct c as [[] [] [] [] [] [] [] []]. Qed.

Lemma toLowerCase_idemp (s : string) :
  Plain.lower (Plain.lower s) = Plain.lower s.
Proof.
  induction s as [|c s IH]; simpl; [done|].
  by rewrite toLowerChar_idemp, IH.
Qed.

Lemma toLowerCase_append (s t : string) :
  Plain.lower (s +:+ t) = Plain.lower s +:+ Plain.lower t.
Proof.
  induction s as [|c s IH]; [done|].
  rewrite append_cons. simpl. by rewrite IH.
Qed.

Lemma toLowerCase_rev (s : string) :
  Plain.lower (String.rev s) = String.rev (Plain.lower s).
Proof.
  induction s as [|c s IH]; [done|]. simpl.
  by rewrite !rev_cons, toLowerCase_append, IH.
Qed.

Lemma toLowerCase_trimStart (s : string) :
  Plain.lower (Plain.trimStart s) = Plain.trimStart (Plain.lower s).
Proof.
  induction s as [|c s IH]; [done|]. simpl.
  rewrite toLowerChar_space. by destruct (Ascii.is_space c).
Qed.

Lemma toLowerCase_trim (s : string) :
  Plain.lower (Plain.strip s) = Plain.strip (Plain.lower s).
Proof.
  unfold Plain.strip, Plain.trimEnd.
  by rewrite toLowerCase_rev, toLowerCase_trimStart, toLowerCase_rev,
    toLowerCase_trimStart.
Qed.

Lemma trimStart_idemp (s : string) :
  Plain.trimStart (Plain.trimStart s) = Plain.trimStart s.
Proof.
  induction s as [|c s IH]; [done|]. simpl.
  destruct (Ascii.is_space c) eqn:Hc; [done|]. simpl. by rewrite Hc.
Qed.

Lemma trimStart_append (s t : string) :
  Plain.trimStart (s +:+ t) =
  if String.eqb (Plain.trimStart s) "" then Plain.trimStart t
  else Plain.trimStart s +:+ t.
Proof.
  induction s as [|c s IH]; [done|]. rewrite append_cons. simpl.
  destruct (Ascii.is_space c); [done|]. by rewrite append_cons.
Qed.

Lemma rev_empty (s : string) : String.rev s = "" → s = "".
Proof. intros Hs. by rewrite <- (rev_involutive s), Hs. Qed.

Lemma trimEnd_cons (c : ascii) (s : string) :
  Plain.trimEnd (String c s) =
  if String.eqb (Plain.trimEnd s) "" then Plain.trimStart (String c "")
  else String c (Plain.trimEnd s).
Proof.
  unfold Plain.trimEnd. rewrite rev_cons, trimStart_append.
  destruct (String.eqb_spec (Plain.trimStart (String.rev s)) "") as [->|Hne].
  - simpl. by destruct (Ascii.is_space c).
  - destruct (String.eqb_spec (String.rev (Plain.trimStart (String.rev s))) "")
      as [Hrev%rev_empty|_]; [done|].
    by rewrite rev_append.
Qed.

Lemma trimStart_trimEnd (s : string) :
  Plain.trimStart (Plain.trimEnd s) = Plain.trimEnd (Plain.trimStart s).
Proof.
  induction s as [|c s IH]; [done|]. rewrite trimEnd_cons.
  simpl (Plain.trimStart (String c s)).
  destruct (Ascii.is_space c) eqn:Hc.
  - destruct (String.eqb_spec (Plain.trimEnd s) "") as [Hs|_].
    + simpl. rewrite Hc. simpl. by rewrite <- IH, Hs.
    + simpl. by rewrite Hc.
  - rewrite trimEnd_cons.
    destruct (String.eqb (Plain.trimEnd s) ""); simpl; rewrite ?Hc; simpl;
      by rewrite ?Hc.
Qed.

Lemma trimEnd_idemp (s : string) : Plain.trimEnd (Plain.trimEnd s) = Plain.trimEnd s.
Proof.
  unfold Plain.trimEnd. by rewrite rev_involutive, trimStart_idemp.
Qed.

Lemma trim_idemp (s : string) : Plain.strip (Plain.strip s) = Plain.strip s.
Proof.
  unfold Plain.strip.
  by rewrite trimStart_trimEnd, trimStart_idemp, trimEnd_idemp.
Qed.

Lemma plain_normal_forms : @NormalForms Plain.strings.
Proof.
  split; simpl.
  - apply trim_idemp.
  - apply toLowerCase_idemp.
  - apply toLowerCase_trim.
Qed.

(** The email under which the creation handler stores a record is in
    normal form. *)
Lemma normalised_stored `{Js.Strings} `{!NormalForms} (e : string) :
  normalised (Js.trim (Js.toLowerCase e)).
Proof.
  split.
  - apply trim_trim.
  - by rewrite toLowerCase_trim_comm, toLowerCase_toLowerCase.
Qed.

Section StoredEmails.

Context `{Js.Strings} `{PasswordHasher}.

(** X12. Provided trimming and lower-casing are idempotent and commute,
    the creation handler keeps the stored emails in normal form: if every
    stored email is a fixed point of [trim] and of [toLowerCase] before a
    call, every stored email is so after it. *)
Theorem create_account_keeps_emails_normalised `{!NormalForms}
    (db : list User.t) (request : NextRequest) :
  (∀ u, u ∈ db → normalised (User.email u)) →
  ∀ u, u ∈ (POST db request).1 → normalised (User.email u).
Proof.
  intros Hdb u. destruct (POST_inv db request)
    as [(_ & -> & _)
       |(b & n & e & old & new & _ & _ & _ & _ & _ & _ & _ & _ & _ & _ & _
         & _ & ->)]; [by apply Hdb|].
  simpl. intros [Hu| ->%list_elem_of_singleton]%elem_of_app.
  - by apply Hdb.
  - apply normalised_stored.
Qed.

(** X13. A body that does not parse is answered 500 by both handlers, by
    the change handler once the caller identity has resolved, and nothing
    is stored. *)
Theorem malformed_body_answers_500
    (getUserFromRequest : NextRequest → option UserPayload)
    (db : list User.t) (request : NextRequest) :
  body request = None →
  POST db request = (db, failure "Failed to create account" 500) ∧
  (is_Some (getUserFromRequest request) →
   PUT getUserFromRequest db request =
     (db, failure "Failed to change password" 500)).
Proof.
  intros Hb. split.
  - unfold POST, POST_try, request_json. by rewrite Hb.
  - intros [p Hp]. unfold PUT, PUT_try, request_json. by rewrite Hp, Hb.
Qed.

(** X14. An account that has just been created can change its password:
    a change request by the new record's identifier that gives the
    password of the creation as the old one, and a further password of at
    least six characters that the stored hash does not accept, answers
    200. *)
Theorem created_account_can_change_password `{!PasswordHasherLaws}
    (getUserFromRequest : NextRequest → option UserPayload)
    (db db' : list User.t) (r1 r2 : NextRequest) (response : NextResponse)
    (b1 b2 : gmap string string) (new1 new2 : string) :
  POST db r1 = (db', response) →
  status response = 200 →
  body r1 = Some b1 → b1 !! "newPassword" = Some new1 →
  ∃ saved,
    db' = db ++ [saved] ∧
    (getUserFromRequest r2 = Some {| userId := User._id saved |} →
     body r2 = Some b2 →
     b2 !! "oldPassword" = Some new1 →
     b2 !! "newPassword" = Some new2 → 6 ≤ String.length new2 →
     verify_password (hash_password new1) new2 = false →
     PUT getUserFromRequest db' r2 =
       (db ++ [User.set_password saved (hash_password new2)],
        password_changed)).
Proof.
  intros Hpost Hok Hb1 Hnew1. destruct (POST_inv db r1)
    as [(Hst & _)
       |(b & n & e & old & new & Hb & _ & _ & _ & _ & _ & _ & Hnew
         & Hlen & _ & _ & _ & Hsaved)].
  { rewrite Hpost in Hst. done. }
  rewrite Hb1 in Hb. injection Hb as <-.
  rewrite Hnew1 in Hnew. injection Hnew as <-.
  simpl in Hsaved. rewrite Hpost in Hsaved. injection Hsaved as -> _.
  eexists. split; [done|].
  intros Hid Hb2 Hold2 Hnew2 Hlen2 Hfresh.
  set (saved := User.new db (Js.trim n) (Js.trim (Js.toLowerCase e))
                  (hash_password new1) (default "tester" (b1 !! "role"))).
  assert (list_find (λ v, User._id v = User._id saved) (db ++ [saved])
          = Some (length db, saved)) as Hfind.
  { apply list_find_snoc_miss; [apply new_id_fresh|done]. }
  destruct (PUT_accepted getUserFromRequest (db ++ [saved]) r2 saved
              new1 new2) as (j & Hj & ->).
  { exists {| userId := User._id saved |}, b2. split_and!; try done.
    - by apply length_nonempty.
    - apply findById_Some. eauto.
    - unfold User.comparePassword. simpl. apply verify_hash. }
  rewrite Hfind in Hj. injection Hj as <-.
  by rewrite insert_app_r_alt, Nat.sub_diag by lia.
Qed.

End StoredEmails.

(** * Further properties of the page *)

Section Page.

Import ChangePasswordPage.

Lemma validateField_old (st : State) (value : string) :
  validateField st "oldPassword" value = None ↔ value ≠ "".
Proof.
  unfold validateField. simpl.
  destruct (String.eqb_spec value ""); split; done.
Qed.

Lemma validateField_new (st : State) (value : string) :
  validateField st "newPassword" value = None ↔
  6 ≤ String.length value ∧ value ≠ FormData.oldPassword (formData st).
Proof.
  change (validateField st "newPassword" value) with
    (if String.eqb value "" then Some "New password is required"
     else if negb (isValidPassword value) then
       Some "New password must be at least 6 characters long"
     else if String.eqb value (FormData.oldPassword (formData st)) then
       Some "New password must be different from the default password"
     else None).
  unfold isValidPassword.
  destruct (String.eqb_spec value "") as [->|Hne].
  { split; [done|]. simpl. lia. }
  destruct (Nat.leb_spec 6 (String.length value)).
  - destruct (String.eqb_spec value (FormData.oldPassword (formData st)));
      simpl; intuition congruence.
  - split; [done|]. lia.
Qed.

(** Every message of [validateField] is a non-empty string. *)
Lemma validateField_message (st : State) (fieldName value : string) :
  Js.falsy (validateField st fieldName value)
  = bool_decide (validateField st fieldName value = None).
Proof.
  unfold validateField.
  repeat match goal with
         | |- context [if ?c then _ else _] => destruct c
         end; done.
Qed.

Lemma validateAllFields_spec (st : State) :
  validateAllFields st = true ↔
  FormData.oldPassword (formData st) ≠ "" ∧
  6 ≤ String.length (FormData.newPassword (formData st)) ∧
  FormData.newPassword (formData st) ≠ FormData.oldPassword (formData st).
Proof.
  rewrite <- (validateField_old st), <- validateField_new.
  unfold validateAllFields, validateAllFields_errors.
  cbn [FieldErrors.oldPassword FieldErrors.newPassword].
  generalize
    (validateField st "oldPassword" (FormData.oldPassword (formData st))),
    (validateField st "newPassword" (FormData.newPassword (formData st))).
  intros [a|] [b|]; intuition congruence.
Qed.

(** X15. The form passes validation exactly when the old password is
    non-empty, the new password has at least six characters and the two
    differ; that is, when the old password is non-empty and both marks of
    the requirements box are set. *)
Theorem form_validation_matches_requirements (st : State) :
  (validateAllFields st = true ↔
   FormData.oldPassword (formData st) ≠ "" ∧
   6 ≤ String.length (FormData.newPassword (formData st)) ∧
   FormData.newPassword (formData st) ≠ FormData.oldPassword (formData st)) ∧
  validateAllFields st =
    negb (String.eqb (FormData.oldPassword (formData st)) "") &&
    requirement_length st && requirement_different st.
Proof.
  split; [apply validateAllFields_spec|].
  apply eq_true_iff_eq. rewrite validateAllFields_spec.
  unfold requirement_length, requirement_different.
  rewrite !andb_true_iff, !negb_true_iff, !String.eqb_neq, Nat.leb_le.
  split.
  - intros (? & Hlen & ?). split_and!; try done. by apply length_nonempty.
  - intros [[? ?] [_ ?]]. done.
Qed.

(** X16. When the form fails validation, or in the registration flow the
    old password is not the staged one, [handleSubmit] does not depend on
    how a call would settle: none is made.  The success flag and the form
    data stay as they were, no general error is set, and an error is put
    on one of the two fields. *)
Theorem submit_blocked_without_call (st : State) (c1 c2 : settled) :
  submits st = false →
  handleSubmit st c1 = handleSubmit st c2 ∧
  success (handleSubmit st c1) = success st ∧
  formData (handleSubmit st c1) = formData st ∧
  FieldErrors.general (fieldErrors (handleSubmit st c1)) = None ∧
  (is_Some (FieldErrors.oldPassword (fieldErrors (handleSubmit st c1))) ∨
   is_Some (FieldErrors.newPassword (fieldErrors (handleSubmit st c1)))).
Proof.
  unfold submits, handleSubmit.
  destruct (validateAllFields st) eqn:Hvalid; simpl.
  - destruct (isRegistrationFlow st); [|done].
    destruct (registrationData st) as [reg|]; [|done].
    intros ->. simpl. split_and!; try done. left. by eexists.
  - intros _. split_and!; try done.
    unfold validateAllFields in Hvalid. simpl in *.
    destruct (validateField st "oldPassword" _); [left; by eexists|].
    destruct (validateField st "newPassword" _); [right; by eexists|done].
Qed.

(** X17. Starting without the success flag, [handleSubmit] sets it
    exactly when the call was made and resolved, in the change flow with
    [success: true] in the response.  It then leaves no error, stops the
    spinner and disables the button; the change flow empties the form and
    the registration flow keeps it. *)
Theorem submit_success (st : State) (call : settled) :
  success st = false →
  let registering :=
    isRegistrationFlow st && bool_decide (is_Some (registrationData st)) in
  (success (handleSubmit st call) = true ↔
   submits st = true ∧
   ∃ ok, call = Resolved ok ∧ (ok = true ∨ registering = true)) ∧
  (success (handleSubmit st call) = true →
   fieldErrors (handleSubmit st call) = FieldErrors.empty ∧
   loading (handleSubmit st call) = false ∧
   submit_disabled (handleSubmit st call) = true ∧
   formData (handleSubmit st call) =
     if registering then formData st
     else {| FormData.oldPassword := ""; FormData.newPassword := "" |}).
Proof.
  intros Hs. unfold submits, handleSubmit, handleSubmit_catch.
  destruct (validateAllFields st); simpl.
  2:{ rewrite Hs. split; [|done]. split; [done|]. by intros [? _]. }
  destruct (isRegistrationFlow st), (registrationData st) as [reg|]; simpl.
  - destruct (String.eqb _ _); simpl.
    + destruct call as [ok|e]; simpl.
      * split; [|done]. split; [|done]. intros _. split; [done|].
        exists ok. split; [done|]. by right.
      * destruct (_ || _); simpl; rewrite Hs;
          (split; [|done]); (split; [done|]); by intros [_ (? & ? & _)].
    + rewrite Hs. split; [|done]. split; [done|]. by intros [? _].
  - destruct call as [[]|e]; simpl.
    + split; [|done]. split; [|done]. intros _. split; [done|].
      exists true. split; [done|]. by left.
    + rewrite Hs. split; [|done]. split; [done|].
      intros [_ (ok & [= <-] & [?|?])]; done.
    + destruct (_ || _); simpl; rewrite Hs;
        (split; [|done]); (split; [done|]); by intros [_ (? & ? & _)].
  - destruct call as [[]|e]; simpl.
    + split; [|done]. split; [|done]. intros _. split; [done|].
      exists true. split; [done|]. by left.
    + rewrite Hs. split; [|done]. split; [done|].
      intros [_ (ok & [= <-] & [?|?])]; done.
    + destruct (_ || _); simpl; rewrite Hs;
        (split; [|done]); (split; [done|]); by intros [_ (? & ? & _)].
  - destruct call as [[]|e]; simpl.
    + split; [|done]. split; [|done]. intros _. split; [done|].
      exists true. split; [done|]. by left.
    + rewrite Hs. split; [|done]. split; [done|].
      intros [_ (ok & [= <-] & [?|?])]; done.
    + destruct (_ || _); simpl; rewrite Hs;
        (split; [|done]); (split; [done|]); by intros [_ (? & ? & _)].
Qed.

(** X18. Once the form has passed validation the [loading] flag is off
    when [handleSubmit] is done, however the call settles and also when
    the staged-password test stops it before the call; when validation
    fails the flag is left as it was.  The [isRegistrationFlow] flag is
    never changed. *)
Theorem submit_frame (st : State) (call : settled) :
  loading (handleSubmit st call) =
    (if validateAllFields st then false else loading st) ∧
  isRegistrationFlow (handleSubmit st call) = isRegistrationFlow st.
Proof.
  unfold handleSubmit, handleSubmit_catch.
  destruct (validateAllFields st); simpl; [|done].
  destruct (isRegistrationFlow st) eqn:Hflow,
    (registrationData st) as [reg|] eqn:Hreg;
    simpl; try destruct (String.eqb _ _); simpl;
    destruct call as [[]|e]; simpl; try destruct (_ || _); simpl;
    by rewrite ?Hflow.
Qed.

End Page.

Section PageEvents.

Import ChangePasswordPage.

(** X19. Typing into one of the two inputs stores the new content in
    that field of the form and leaves the other field alone.  The error
    shown on that field and the general error are gone afterwards,
    whatever was typed, while the error on the other field stays; the
    success flag is off and the spinner is as before. *)
Theorem input_change_clears_own_error
    (st : State) (name value : string) :
  name ∈ ["oldPassword"; "newPassword"] →
  let st' := handleInputChange st name value in
  formData st' =
    (if String.eqb name "oldPassword"
     then {| FormData.oldPassword := value;
             FormData.newPassword := FormData.newPassword (formData st) |}
     else {| FormData.oldPassword := FormData.oldPassword (formData st);
             FormData.newPassword := value |}) ∧
  Js.falsy (get_error (fieldErrors st') name) = true ∧
  Js.falsy (FieldErrors.general (fieldErrors st')) = true ∧
  (∀ other, other ∈ ["oldPassword"; "newPassword"] → other ≠ name →
            get_error (fieldErrors st') other
            = get_error (fieldErrors st) other) ∧
  success st' = false ∧
  loading st' = loading st.
Proof.
  intros Hname. simpl.
  assert (∀ other, other ∈ ["oldPassword"; "newPassword"] →
                   other = "oldPassword" ∨ other = "newPassword") as Hcases.
  { intros other Ho. apply elem_of_cons in Ho as [->|Ho]; [by left|].
    apply elem_of_cons in Ho as [->|Ho]; [by right|].
    by apply elem_of_nil in Ho. }
  unfold handleInputChange.
  destruct (Hcases name Hname) as [-> | ->];
    cbn [get_error put_error put_field String.eqb Ascii.eqb Bool.eqb
         formData fieldErrors success loading];
    destruct (Js.falsy (FieldErrors.oldPassword (fieldErrors st))) eqn:Hold,
      (Js.falsy (FieldErrors.newPassword (fieldErrors st))) eqn:Hnew,
      (Js.falsy (FieldErrors.general (fieldErrors st))) eqn:Hgen;
    cbn [negb get_error put_error String.eqb Ascii.eqb Bool.eqb
         FieldErrors.oldPassword FieldErrors.newPassword
         FieldErrors.general];
    (split_and!;
     [done | done | done
     | intros other [-> | ->]%Hcases Hne; done
     | by destruct (success st) | done]).
Qed.

(** X20. Leaving both inputs in turn shows on the two fields exactly the
    errors that validation on submit would show, so the fields are free of
    errors afterwards exactly when the form would pass; the general error,
    the form data, the success flag and the spinner are not touched. *)
Theorem blur_agrees_with_submit (st : State) :
  let st1 :=
    handleFieldBlur st "oldPassword" (FormData.oldPassword (formData st)) in
  let st2 :=
    handleFieldBlur st1 "newPassword"
      (FormData.newPassword (formData st1)) in
  FieldErrors.oldPassword (fieldErrors st2)
    = FieldErrors.oldPassword (validateAllFields_errors st) ∧
  FieldErrors.newPassword (fieldErrors st2)
    = FieldErrors.newPassword (validateAllFields_errors st) ∧
  (validateAllFields st = true ↔
   FieldErrors.oldPassword (fieldErrors st2) = None ∧
   FieldErrors.newPassword (fieldErrors st2) = None) ∧
  FieldErrors.general (fieldErrors st2)
    = FieldErrors.general (fieldErrors st) ∧
  formData st2 = formData st ∧ success st2 = success st ∧
  loading st2 = loading st.
Proof.
  simpl.
  assert (∀ e : option string,
            (if bool_decide (e = None) then None else e) = e) as Hid.
  { intros [m|]; done. }
  unfold handleFieldBlur. rewrite !validateField_message, !Hid.
  change (validateField (set_errors st ?l ?e)) with (validateField st).
  cbn [put_error set_errors String.eqb Ascii.eqb Bool.eqb fieldErrors
       formData success loading FieldErrors.oldPassword
       FieldErrors.newPassword FieldErrors.general
       validateAllFields_errors].
  split_and!; try done.
  unfold validateAllFields, validateAllFields_errors.
  cbn [FieldErrors.oldPassword FieldErrors.newPassword].
  generalize
    (validateField st "oldPassword" (FormData.oldPassword (formData st))).
  intros [a|]; [intuition congruence|].
  match goal with
  | |- context [match ?x with _ => _ end] => destruct x
  end; intuition congruence.
Qed.

End PageEvents.

(** * The page against the change-password handler *)

Section PageAndHandler.

Import ChangePasswordPage.

Context `{PasswordHasher}.
Variable getUserFromRequest : NextRequest → option UserPayload.

Lemma change_password_body_lookup (st : State) :
  change_password_body st !! "oldPassword"
    = Some (FormData.oldPassword (formData st)) ∧
  change_password_body st !! "newPassword"
    = Some (FormData.newPassword (formData st)).
Proof.
  unfold change_password_body. split.
  - apply lookup_insert_eq.
  - rewrite lookup_insert_ne by done. apply lookup_singleton_eq.
Qed.

(** X21. What the page checks before sending, the handler does not
    refuse: for a form that has passed validation, the body sent by the
    change flow is never answered with the 400 for missing fields nor with
    the 400 for a short new password. *)
Theorem validated_form_passes_server_validation
    (st : State) (db : list User.t) (request : NextRequest) :
  validateAllFields st = true →
  body request = Some (change_password_body st) →
  (PUT getUserFromRequest db request).2
    ≠ failure "Old password and new password are required" 400 ∧
  (PUT getUserFromRequest db request).2
    ≠ failure "New password must be at least 6 characters long" 400.
Proof.
  intros (Hold & Hlen & _)%validateAllFields_spec Hb.
  destruct (change_password_body_lookup st) as [Ho Hn].
  unfold PUT, PUT_try, request_json. rewrite Hb.
  destruct (getUserFromRequest request) as [p|]; [|done]. simpl.
  rewrite Ho, Hn. rewrite !falsy_Some by auto using length_nonempty.
  simpl. destruct (Nat.ltb_spec (String.length
                     (FormData.newPassword (formData st))) 6); [lia|].
  destruct (User.findById db (userId p)) as [user|] eqn:Hfind; [|done].
  destruct (User.isActive user); [|done]. simpl.
  destruct (User.comparePassword user _); [|done]. simpl.
  destruct (User.comparePassword user _); [done|].
  destruct (save_fetched db _ user (FormData.newPassword (formData st))
              Hfind) as (i & _ & ->). done.
Qed.

(** X22. Where the page shows a failure of the change-password handler:
    the 401 and 404 answers (no identity, deactivated account, unknown
    user) become the general error; every 400 answer and the 500 answer
    are put on the oldPassword field, the 400 about the length of the new
    password included.  The newPassword field never shows a server
    error. *)
Theorem change_password_failure_on_page
    (st : State) (db : list User.t) (request : NextRequest) :
  let r := (PUT getUserFromRequest db request).2 in
  let errors := fieldErrors (handleSubmit_catch st (response_data_error r)) in
  status r ≠ 200 →
  ∃ msg,
    field "error" (payload r) = Some (JStr msg) ∧
    (status r = 401 ∨ status r = 404 →
     errors = {| FieldErrors.oldPassword := None;
                 FieldErrors.newPassword := None;
                 FieldErrors.general := Some msg |}) ∧
    (status r = 400 ∨ status r = 500 →
     errors = {| FieldErrors.oldPassword := Some msg;
                 FieldErrors.newPassword := None;
                 FieldErrors.general := None |}).
Proof.
  simpl. destruct (PUT_responses getUserFromRequest db request)
    as [->|(msg & code & -> & Hin)]; [done|].
  intros _. exists msg. split; [done|].
  repeat (apply elem_of_cons in Hin as [[= -> ->]|Hin];
          [split; intros [?|?]; done|]).
  by apply elem_of_nil in Hin.
Qed.

End PageAndHandler.

(** * The further properties at work on the example store *)

(** Refutes an equation between values that evaluate apart. *)
Ltac apart := let Heq := fresh in intros Heq; vm_compute in Heq; discriminate.

Lemma demo_unique_keys : unique_keys Demo.db.
Proof.
  split; simpl;
    repeat (apply NoDup_cons; split;
            [rewrite ?elem_of_cons, elem_of_nil; intuition discriminate|]);
    apply NoDup_nil_2.
Qed.

Lemma demo_normalised (u : User.t) :
  u ∈ Demo.db → @normalised Plain.strings (User.email u).
Proof.
  intros Hu. apply elem_of_cons in Hu as [->|Hu]; [by split|].
  apply elem_of_cons in Hu as [->|Hu]; [by split|].
  by apply elem_of_nil in Hu.
Qed.

Lemma change_password_response_shape_witness :
  ∃ msg,
    field "error"
      (payload
         (@PUT Demo.tag_hasher Demo.session_resolver Demo.db
            (Demo.request None [])).2)
    = Some (JStr msg).
Proof.
  destruct (@change_password_response_shape Demo.tag_hasher
              Demo.session_resolver Demo.db (Demo.request None []))
    as (_ & _ & _ & Herror).
  apply Herror. simpl. lia.
Defined.

Lemma change_password_only_own_record_witness :
  User.findById
    (@PUT Demo.tag_hasher Demo.session_resolver Demo.db
       Demo.change_alice).1 2
  = Some Demo.bob.
Proof.
  rewrite (@change_password_only_own_record Demo.tag_hasher
             Demo.session_resolver Demo.db Demo.change_alice 2).
  - reflexivity.
  - intros p Hp. vm_compute in Hp. injection Hp as <-. discriminate.
Defined.

Lemma change_password_same_string_rejected_witness :
  (@PUT Demo.tag_hasher Demo.session_resolver Demo.db
     (Demo.request (Some "tok-alice")
        [("oldPassword", "default1"); ("newPassword", "default1")])).1
  = Demo.db.
Proof.
  destruct (@change_password_same_string_rejected Demo.tag_hasher
              Demo.session_resolver Demo.db
              (Demo.request (Some "tok-alice")
                 [("oldPassword", "default1"); ("newPassword", "default1")])
              (list_to_map
                 [("oldPassword", "default1"); ("newPassword", "default1")])
              eq_refl eq_refl) as [_ Hdb].
  exact Hdb.
Defined.

Lemma change_password_preserves_keys_witness :
  unique_keys
    (@PUT Demo.tag_hasher Demo.session_resolver Demo.db
       Demo.change_alice).1.
Proof.
  destruct (@change_password_preserves_keys Demo.tag_hasher
              Demo.session_resolver Demo.db Demo.change_alice)
    as (_ & _ & _ & _ & _ & _ & Hkeys).
  apply Hkeys, demo_unique_keys.
Defined.

Lemma change_password_chain_witness :
  ∃ i user,
    [User.set_password Demo.alice "h$secret1"; Demo.bob] !! i = Some user ∧
    @PUT Demo.tag_hasher Demo.session_resolver
      [User.set_password Demo.alice "h$secret1"; Demo.bob]
      (Demo.request (Some "tok-alice")
         [("oldPassword", "secret1"); ("newPassword", "another2")])
    = (<[i := User.set_password user "h$another2"]>
         [User.set_password Demo.alice "h$secret1"; Demo.bob],
       password_changed).
Proof.
  apply (@change_password_chain Demo.tag_hasher Demo.session_resolver
           tag_hasher_laws Demo.db
           [User.set_password Demo.alice "h$secret1"; Demo.bob]
           Demo.change_alice
           (Demo.request (Some "tok-alice")
              [("oldPassword", "secret1"); ("newPassword", "another2")])
           password_changed
           (list_to_map
              [("oldPassword", "default1"); ("newPassword", "secret1")])
           (list_to_map
              [("oldPassword", "secret1"); ("newPassword", "another2")])
           "secret1" "another2"); evaluate.
Defined.

Lemma change_password_can_revert_witness :
  ∃ i user,
    [User.set_password Demo.alice "h$secret1"; Demo.bob] !! i = Some user ∧
    @PUT Demo.tag_hasher Demo.session_resolver
      [User.set_password Demo.alice "h$secret1"; Demo.bob]
      (Demo.request (Some "tok-alice")
         [("oldPassword", "secret1"); ("newPassword", "default1")])
    = (<[i := User.set_password user "h$default1"]>
         [User.set_password Demo.alice "h$secret1"; Demo.bob],
       password_changed).
Proof.
  apply (@change_password_can_revert Demo.tag_hasher Demo.session_resolver
           tag_hasher_laws Demo.db
           [User.set_password Demo.alice "h$secret1"; Demo.bob]
           Demo.change_alice
           (Demo.request (Some "tok-alice")
              [("oldPassword", "secret1"); ("newPassword", "default1")])
           password_changed
           (list_to_map
              [("oldPassword", "default1"); ("newPassword", "secret1")])
           (list_to_map
              [("oldPassword", "secret1"); ("newPassword", "default1")])
           "default1" "secret1"); evaluate.
Defined.

Lemma create_account_response_shape_witness :
  ∃ msg,
    field "error"
      (payload (@POST Plain.strings Demo.tag_hasher Demo.db (Demo.request None [])).2)
    = Some (JStr msg).
Proof.
  destruct (@create_account_response_shape Plain.strings Demo.tag_hasher Demo.db
              (Demo.request None [])) as (_ & _ & _ & Herror).
  apply Herror. apart.
Defined.

Lemma create_account_appends_witness :
  ∃ u, (@POST Plain.strings Demo.tag_hasher Demo.db Demo.create_carl).1 = Demo.db ++ [u].
Proof.
  destruct (@create_account_appends Plain.strings Demo.tag_hasher Demo.db
              Demo.create_carl) as (_ & Hadd & _).
  destruct Hadd as (u & Hu & _); [reflexivity|].
  exists u. exact Hu.
Defined.

Lemma create_account_preserves_unique_keys_witness :
  unique_keys (@POST Plain.strings Demo.tag_hasher Demo.db Demo.create_carl).1.
Proof.
  apply (@create_account_preserves_unique_keys Plain.strings Demo.tag_hasher),
    demo_unique_keys.
Defined.

Lemma create_account_rejects_taken_email_witness :
  @POST Plain.strings Demo.tag_hasher Demo.db
    (Demo.request None
       [("name", "Bo"); ("email", "  B@X.COM ");
        ("oldPassword", "default1"); ("newPassword", "secret1")])
  = (Demo.db, failure "User with this email already exists" 400).
Proof.
  apply (@create_account_rejects_taken_email Plain.strings Demo.tag_hasher Demo.db _
           (list_to_map
              [("name", "Bo"); ("email", "  B@X.COM ");
               ("oldPassword", "default1"); ("newPassword", "secret1")])
           "Bo" "  B@X.COM " "default1" "secret1" Demo.bob);
    [evaluate..| |reflexivity].
  apply list_elem_of_further, list_elem_of_here.
Defined.

Lemma create_account_replay_conflicts_witness :
  (@POST Plain.strings Demo.tag_hasher
     (@POST Plain.strings Demo.tag_hasher Demo.db Demo.create_carl).1
     Demo.create_carl).2
  = failure "User with this email already exists" 400.
Proof.
  rewrite (@create_account_replay_conflicts Plain.strings Demo.tag_hasher Demo.db
             (@POST Plain.strings Demo.tag_hasher Demo.db Demo.create_carl).1
             Demo.create_carl
             (@POST Plain.strings Demo.tag_hasher Demo.db Demo.create_carl).2);
    reflexivity.
Defined.

Lemma create_account_then_lookup_witness :
  ∃ saved,
    User.findOne (@POST Plain.strings Demo.tag_hasher Demo.db Demo.create_carl).1
      (User.email saved) = Some saved.
Proof.
  destruct (@create_account_then_lookup Plain.strings Demo.tag_hasher Demo.db
              (@POST Plain.strings Demo.tag_hasher Demo.db Demo.create_carl).1
              Demo.create_carl
              (@POST Plain.strings Demo.tag_hasher Demo.db Demo.create_carl).2
              eq_refl eq_refl) as (saved & _ & _ & Hfind).
  exists saved. exact Hfind.
Defined.

Lemma create_account_ignores_old_password_witness :
  @POST Plain.strings Demo.tag_hasher Demo.db
    {| authorization := None;
       body := Some (<["oldPassword" := "default1"]>
                       (list_to_map
                          [("name", "Dan"); ("email", "d@x.com");
                           ("newPassword", "secret1")])) |}
  = @POST Plain.strings Demo.tag_hasher Demo.db
      {| authorization := None;
         body := Some (<["oldPassword" := "anything"]>
                         (list_to_map
                            [("name", "Dan"); ("email", "d@x.com");
                             ("newPassword", "secret1")])) |}.
Proof.
  apply (@create_account_ignores_old_password Plain.strings Demo.tag_hasher);
    discriminate.
Defined.

Lemma create_account_keeps_emails_normalised_witness :
  @normalised Plain.strings
    (User.email (User.mk 3 "Carl" "carl@x.com" "h$secret1" "tester" true)).
Proof.
  apply (@create_account_keeps_emails_normalised Plain.strings
           Demo.tag_hasher plain_normal_forms Demo.db Demo.create_carl
           demo_normalised).
  apply list_elem_of_further, list_elem_of_further, list_elem_of_here.
Defined.

Lemma malformed_body_answers_500_witness :
  @PUT Demo.tag_hasher Demo.session_resolver Demo.db
    {| authorization := Some "tok-alice"; body := None |}
  = (Demo.db, failure "Failed to change password" 500).
Proof.
  destruct (@malformed_body_answers_500 Plain.strings Demo.tag_hasher
              Demo.session_resolver Demo.db
              {| authorization := Some "tok-alice"; body := None |}
              eq_refl) as [_ Hput].
  apply Hput. exists {| userId := 1 |}. reflexivity.
Defined.

Lemma created_account_can_change_password_witness :
  ∃ saved,
    (@POST Plain.strings Demo.tag_hasher [] Demo.create_carl).1 = [] ++ [saved] ∧
    @PUT Demo.tag_hasher Demo.session_resolver
      (@POST Plain.strings Demo.tag_hasher [] Demo.create_carl).1
      (Demo.request (Some "tok-alice")
         [("oldPassword", "secret1"); ("newPassword", "another2")])
    = ([] ++ [User.set_password saved "h$another2"], password_changed).
Proof.
  destruct (@created_account_can_change_password Plain.strings Demo.tag_hasher
              tag_hasher_laws Demo.session_resolver []
              (@POST Plain.strings Demo.tag_hasher [] Demo.create_carl).1
              Demo.create_carl
              (Demo.request (Some "tok-alice")
                 [("oldPassword", "secret1"); ("newPassword", "another2")])
              (@POST Plain.strings Demo.tag_hasher [] Demo.create_carl).2
              (list_to_map
                 [("name", " Carl "); ("email", " Carl@X.com ");
                  ("oldPassword", "default1"); ("newPassword", "secret1")])
              (list_to_map
                 [("oldPassword", "secret1"); ("newPassword", "another2")])
              "secret1" "another2" eq_refl eq_refl eq_refl eq_refl)
    as (saved & Hdb & Hput).
  exists saved. split; [exact Hdb|].
  injection Hdb as <-. apply Hput; evaluate.
Defined.

Lemma submit_blocked_without_call_witness :
  ChangePasswordPage.handleSubmit
    (ChangePasswordPage.handleInputChange Demo.page "newPassword" "abc")
    (ChangePasswordPage.Resolved true)
  = ChangePasswordPage.handleSubmit
      (ChangePasswordPage.handleInputChange Demo.page "newPassword" "abc")
      (ChangePasswordPage.Rejected None).
Proof.
  destruct (submit_blocked_without_call
              (ChangePasswordPage.handleInputChange Demo.page
                 "newPassword" "abc")
              (ChangePasswordPage.Resolved true)
              (ChangePasswordPage.Rejected None) eq_refl) as [Hsame _].
  exact Hsame.
Defined.

Lemma submit_success_witness :
  ChangePasswordPage.formData
    (ChangePasswordPage.handleSubmit Demo.page
       (ChangePasswordPage.Resolved true))
  = {| FormData.oldPassword := ""; FormData.newPassword := "" |}.
Proof.
  destruct (submit_success Demo.page (ChangePasswordPage.Resolved true)
              eq_refl) as [_ Heffects].
  destruct Heffects as (_ & _ & _ & Hform); [reflexivity|].
  exact Hform.
Defined.

Lemma input_change_clears_own_error_witness :
  Js.falsy
    (ChangePasswordPage.get_error
       (ChangePasswordPage.fieldErrors
          (ChangePasswordPage.handleInputChange
             (ChangePasswordPage.handleSubmit Demo.page
                (ChangePasswordPage.Rejected
                   (Some "Current password is incorrect")))
             "oldPassword" "default2"))
       "oldPassword")
  = true.
Proof.
  destruct (input_change_clears_own_error
              (ChangePasswordPage.handleSubmit Demo.page
                 (ChangePasswordPage.Rejected
                    (Some "Current password is incorrect")))
              "oldPassword" "default2") as (_ & Hown & _).
  - apply list_elem_of_here.
  - exact Hown.
Defined.

Lemma validated_form_passes_server_validation_witness :
  (@PUT Demo.tag_hasher Demo.session_resolver Demo.db
     {| authorization := Some "tok-alice";
        body := Some (ChangePasswordPage.change_password_body Demo.page) |}).2
  ≠ failure "New password must be at least 6 characters long" 400.
Proof.
  destruct (@validated_form_passes_server_validation Demo.tag_hasher
              Demo.session_resolver Demo.page Demo.db
              {| authorization := Some "tok-alice";
                 body := Some (ChangePasswordPage.change_password_body
                                 Demo.page) |}
              eq_refl eq_refl) as [_ Hlen].
  exact Hlen.
Defined.

Lemma change_password_failure_on_page_witness :
  ∃ msg,
    ChangePasswordPage.fieldErrors
      (ChangePasswordPage.handleSubmit_catch Demo.page
         (ChangePasswordPage.response_data_error
            (@PUT Demo.tag_hasher Demo.session_resolver Demo.db
               (Demo.request (Some "tok-alice")
                  [("oldPassword", "default1");
                   ("newPassword", "abc")])).2))
    = {| FieldErrors.oldPassword := Some msg;
         FieldErrors.newPassword := None;
         FieldErrors.general := None |}.
Proof.
  destruct (@change_password_failure_on_page Demo.tag_hasher
              Demo.session_resolver Demo.page Demo.db
              (Demo.request (Some "tok-alice")
                 [("oldPassword", "default1"); ("newPassword", "abc")]))
    as (msg & _ & _ & Hfield).
  - apart.
  - exists msg. apply Hfield. left. reflexivity.
Defined.
